(** * remix.py: rebasing a container image onto a new base image

    A shallow embedding of [src/remix.py] and the properties of its three
    stages: the package inventory extractor [get_installed_packages], the
    recipe generator [generate_dockerfile] and the image builder
    [build_container_image].

    Python text ([str]) is a list of Unicode code points, the engine's raw
    output ([bytes]) a list of bytes.  Calls into the Docker engine, console
    output and exceptions are threaded through one small monad whose state
    is the trace of observable events. *)

From Stdlib Require Import Lists.List Strings.String Strings.Ascii Strings.Byte.
From Stdlib Require Import NArith ZArith Bool Lia Numbers.DecimalString.
Import ListNotations.

Local Open Scope N_scope.

(* ================================================================= *)
(** ** Python built-ins on text *)

Module Py.

(** A Python [str]: its sequence of code points. *)
Definition str := list N.

(** A Python [bytes] value. *)
Definition bytes := list byte.

(** An ASCII literal of the source, as a [str] and as [bytes]. *)
Definition u (s : string) : str := map Byte.to_N (list_byte_of_string s).
Definition b (s : string) : bytes := list_byte_of_string s.

Definition LF : N := 10.
Definition CR : N := 13.
Definition QUOTE : N := 34.
Definition BACKSLASH : N := 92.

(** [s.startswith(pat)] *)
Fixpoint startswith (pat s : str) : bool :=
  match pat, s with
  | [], _ => true
  | _ :: _, [] => false
  | p :: pat', c :: s' => (p =? c) && startswith pat' s'
  end.

(** [pat in s] *)
Fixpoint contains (pat s : str) : bool :=
  startswith pat s ||
  match s with
  | [] => false
  | _ :: s' => contains pat s'
  end.

(** [str.isspace] on one code point: the whitespace of [str.split()] and
    [str.strip()]. *)
Definition isspace (c : N) : bool :=
  ((0x09 <=? c) && (c <=? 0x0D)) || ((0x1C <=? c) && (c <=? 0x20))
  || (c =? 0x85) || (c =? 0xA0) || (c =? 0x1680)
  || ((0x2000 <=? c) && (c <=? 0x200A))
  || (c =? 0x2028) || (c =? 0x2029) || (c =? 0x202F) || (c =? 0x205F)
  || (c =? 0x3000).

(** The line boundaries of [str.splitlines]. *)
Definition is_linebreak (c : N) : bool :=
  ((0x0A <=? c) && (c <=? 0x0D)) || ((0x1C <=? c) && (c <=? 0x1E))
  || (c =? 0x85) || (c =? 0x2028) || (c =? 0x2029).

(** [s.splitlines()]: the lines without their terminators; CR LF is one
    terminator; no empty last line after a final terminator. *)
Fixpoint splitlines (s : str) : list str :=
  match s with
  | [] => []
  | c :: s' =>
      if is_linebreak c then
        match s' with
        | d :: s'' =>
            if (c =? CR) && (d =? LF) then [] :: splitlines s''
            else [] :: splitlines s'
        | [] => [[]]
        end
      else
        match splitlines s' with
        | [] => [[c]]
        | l :: ls => (c :: l) :: ls
        end
  end.

(** [s.split(sep)] for a separator of one code point: never an empty
    list, empty fields are kept. *)
Fixpoint split (sep : N) (s : str) : list str :=
  match s with
  | [] => [[]]
  | c :: s' =>
      if c =? sep then [] :: split sep s'
      else
        match split sep s' with
        | [] => [[c]]
        | f :: fs => (c :: f) :: fs
        end
  end.

(** [s.split()]: the maximal runs of non-whitespace code points. *)
Fixpoint split_ws (s : str) : list str :=
  match s with
  | [] => []
  | c :: s' =>
      if isspace c then split_ws s'
      else
        match s' with
        | [] => [[c]]
        | d :: _ =>
            if isspace d then [c] :: split_ws s'
            else
              match split_ws s' with
              | [] => [[c]]
              | w :: ws => (c :: w) :: ws
              end
        end
  end.

(** [s.lstrip()], [s.rstrip()], [s.strip()] *)
Fixpoint lstrip (s : str) : str :=
  match s with
  | [] => []
  | c :: s' => if isspace c then lstrip s' else s
  end.

Definition rstrip (s : str) : str := rev (lstrip (rev s)).

Definition strip (s : str) : str := rstrip (lstrip s).

(** [sep.join(l)] *)
Fixpoint join (sep : str) (l : list str) : str :=
  match l with
  | [] => []
  | [x] => x
  | x :: rest => x ++ sep ++ join sep rest
  end.

(** A continuation byte of UTF-8. *)
Definition is_cont (x : N) : bool := (0x80 <=? x) && (x <=? 0xBF).

Definition in_range (lo hi x : N) : bool := (lo <=? x) && (x <=? hi).

Definition low6 (x : N) : N := N.land x 0x3F.

(** The strict UTF-8 decoder behind [bytes.decode('utf-8')], on byte
    values: no overlong forms, no surrogates, nothing above U+10FFFF.
    [None] stands for [UnicodeDecodeError]. *)
Fixpoint decode_utf8 (bs : list N) : option str :=
  match bs with
  | [] => Some []
  | b0 :: r0 =>
      if b0 <? 0x80 then option_map (cons b0) (decode_utf8 r0)
      else if in_range 0xC2 0xDF b0 then
        match r0 with
        | b1 :: r1 =>
            if is_cont b1 then
              option_map
                (cons (N.lor (N.shiftl (N.land b0 0x1F) 6) (low6 b1)))
                (decode_utf8 r1)
            else None
        | _ => None
        end
      else if in_range 0xE0 0xEF b0 then
        match r0 with
        | b1 :: b2 :: r2 =>
            if in_range (if b0 =? 0xE0 then 0xA0 else 0x80)
                        (if b0 =? 0xED then 0x9F else 0xBF) b1
               && is_cont b2
            then
              option_map
                (cons (N.lor (N.shiftl (N.land b0 0x0F) 12)
                         (N.lor (N.shiftl (low6 b1) 6) (low6 b2))))
                (decode_utf8 r2)
            else None
        | _ => None
        end
      else if in_range 0xF0 0xF4 b0 then
        match r0 with
        | b1 :: b2 :: b3 :: r3 =>
            if in_range (if b0 =? 0xF0 then 0x90 else 0x80)
                        (if b0 =? 0xF4 then 0x8F else 0xBF) b1
               && is_cont b2 && is_cont b3
            then
              option_map
                (cons (N.lor (N.shiftl (N.land b0 0x07) 18)
                         (N.lor (N.shiftl (low6 b1) 12)
                            (N.lor (N.shiftl (low6 b2) 6) (low6 b3)))))
                (decode_utf8 r3)
            else None
        | _ => None
        end
      else None
  end.

(** [output.decode('utf-8')] *)
Definition decode (output : bytes) : option str :=
  decode_utf8 (map Byte.to_N output).

(** [d.get(key, default)] on a dict with text keys and text values, kept
    as an association list. *)
Fixpoint dict_get (d : list (str * str)) (key default : str) : str :=
  match d with
  | [] => default
  | (k, v) :: d' =>
      if list_eq_dec N.eq_dec k key then v else dict_get d' key default
  end.

End Py.

Import Py.


(* ================================================================= *)
(** ** Exceptions, observable events and the program monad *)

(** One record of a build log, a decoded JSON object such as
    [{'stream': 'Step 1/2 : FROM debian'}]. *)
Definition LogRecord := list (str * str).

(** The exceptions the program meets.  [SystemExit] derives from
    [BaseException] only, so [except Exception] lets it through. *)
Inductive exn :=
| BuildError (msg : str) (build_log : list LogRecord)
    (* docker.errors.BuildError: its message and [e.build_log] *)
| Exception (cls : str) (msg : str)
    (* any other instance of Exception: class name and [str(e)] *)
| SystemExit (code : Z).
    (* raised by [sys.exit(code)] *)

(** [str(e)] *)
Definition exn_str (e : exn) : str :=
  match e with
  | BuildError msg _ => msg
  | Exception _ msg => msg
  | SystemExit code => u (DecimalString.NilZero.string_of_int (Z.to_int code))
  end.

Inductive outcome (A : Type) :=
| Returned (a : A)
| Raised (e : exn).
Arguments Returned {A} a.
Arguments Raised {A} e.

(** What an observer of the process and of the engine sees, in order. *)
Inductive event :=
| Stdout (line : str)                      (* print(...) *)
| Traceback (e : exn)                      (* traceback.print_exc() *)
| ImagesGet (name : str)                   (* client.images.get *)
| ContainersCreate (image_id : str)        (* client.containers.create *)
| PutArchive (path : str) (files : list (str * str))
                                           (* container.put_archive *)
| Start                                    (* container.start *)
| ExecRun (cmd : str)                      (* container.exec_run *)
| Stop                                     (* container.stop *)
| Remove                                   (* container.remove *)
| ImagesBuild (context : list (str * str)) (tag : str) (rm pull : bool).
                                           (* client.images.build *)

(** A computation: from the trace so far to the extended trace and either
    a value or a raised exception. *)
Definition Run (A : Type) : Type := list event -> list event * outcome A.

Definition ret {A} (a : A) : Run A := fun t => (t, Returned a).

Definition raise {A} (e : exn) : Run A := fun t => (t, Raised e).

Definition bind {A B} (m : Run A) (k : A -> Run B) : Run B :=
  fun t =>
    match m t with
    | (t', Returned a) => k a t'
    | (t', Raised e) => (t', Raised e)
    end.

Declare Scope run_scope.
Delimit Scope run_scope with run.
Notation "x <- m ;; k" := (bind m (fun x => k))
  (at level 61, m at next level, right associativity) : run_scope.
Notation "m ;; k" := (bind m (fun _ => k))
  (at level 61, right associativity) : run_scope.
Local Open Scope run_scope.

(** [try: body except ...: handler]: [handler e] is [None] when no except
    clause matches [e], which then propagates. *)
Definition try_except {A} (body : Run A) (handler : exn -> option (Run A))
  : Run A :=
  fun t =>
    match body t with
    | (t', Returned a) => (t', Returned a)
    | (t', Raised e) =>
        match handler e with
        | Some h => h t'
        | None => (t', Raised e)
        end
    end.

(** One observable action whose result the environment decides. *)
Definition call {A} (ev : event) (result : outcome A) : Run A :=
  fun t => (t ++ [ev], result).

Definition print (line : str) : Run unit := call (Stdout line) (Returned tt).

Definition print_exc (e : exn) : Run unit := call (Traceback e) (Returned tt).

Definition sys_exit {A} (code : Z) : Run A := raise (SystemExit code).

(** [for x in l: body(x)] *)
Fixpoint for_each {A} (l : list A) (body : A -> Run unit) : Run unit :=
  match l with
  | [] => ret tt
  | x :: l' => body x ;; for_each l' body
  end.

(** [[f(x) for x in l if cond(x)]] *)
Fixpoint comprehension {A B} (l : list A) (cond : A -> bool) (f : A -> Run B)
  : Run (list B) :=
  match l with
  | [] => ret []
  | x :: l' =>
      if cond x then
        y <- f x ;; ys <- comprehension l' cond f ;; ret (y :: ys)
      else comprehension l' cond f
  end.

(** [l[0]] *)
Definition item0 {A} (l : list A) : Run A :=
  match l with
  | x :: _ => ret x
  | [] => raise (Exception (u "IndexError") (u "list index out of range"))
  end.

(** [output.decode('utf-8')] as a computation; the byte and position named
    in the message of the error are not modelled. *)
Definition decode_utf_8 (output : bytes) : Run str :=
  match decode output with
  | Some text => ret text
  | None => raise (Exception (u "UnicodeDecodeError") (u "invalid utf-8"))
  end.

(* ================================================================= *)
(** ** The container engine *)

Record Image := { id : str }.

(** The Docker client as the program uses it: what each operation answers.
    Every operation is called at most once per stage and with arguments
    fixed by the program, so its answer is all that matters. *)
Record Engine := {
  images_get : str -> outcome Image;
  containers_create : str -> outcome unit;
  put_archive : outcome bool;
  start : outcome unit;
  exec_run : str -> outcome (Z * bytes);
  stop : outcome unit;
  remove : outcome unit;
  images_build : list (str * str) -> str -> outcome (Image * list LogRecord)
}.

(* ================================================================= *)
(** ** The program *)

(** The probe of lines 22-28, written into the archive. *)
Definition list_installed_packages_sh : str :=
  List.concat
    [ u "#!/bin/sh"; [LF];
      u "            if command -v apt-get >/dev/null 2>&1; then"; [LF];
      u "                apt list --installed"; [LF];
      u "            elif command -v yum >/dev/null 2>&1; then"; [LF];
      u "                yum list installed"; [LF];
      u "            fi"; [LF];
      u "            " ].

Section Program.

Variable client : Engine.

(** Lines 53-60: the inventory read off the probe's output. *)
Definition parse_installed_packages (output : bytes) : Run (list str) :=
  text <- decode_utf_8 output ;;
  if contains (u "apt") text then
    text <- decode_utf_8 output ;;
    comprehension (splitlines text) (contains (u "/"))
      (fun line => item0 (split 47 line))
  else
    text <- decode_utf_8 output ;;
    if contains (u "yum") text then
      text <- decode_utf_8 output ;;
      comprehension (splitlines text) (contains (u "."))
        (fun line => item0 (split_ws line))
    else ret [].

(** [get_installed_packages(image)], lines 16-60.  The temporary
    directories and the archive are local files; of them the model keeps
    what reaches the engine, the archive's one member. *)
Definition get_installed_packages (image : Image) : Run (list str) :=
  call (ContainersCreate (id image)) (containers_create client (id image)) ;;
  call (PutArchive (u "/")
          [(u "list_installed_packages.sh", list_installed_packages_sh)])
       (put_archive client) ;;
  r <- try_except
         (call Start (start client) ;;
          r <- call (ExecRun (u "/list_installed_packages.sh"))
                    (exec_run client (u "/list_installed_packages.sh")) ;;
          call Stop (stop client) ;;
          call Remove (remove client) ;;
          ret r)
         (fun e =>
            match e with
            | SystemExit _ => None
            | _ =>
                Some (print (u "Exception: " ++ exn_str e) ;;
                      print_exc e ;;
                      print (u "Failed to list installed packages in the old image:") ;;
                      sys_exit 1%Z)
            end) ;;
  let '(exit_code, output) := r in
  parse_installed_packages output.

(** [generate_dockerfile(base_image, packages)], lines 63-79: the
    f-string, piece by piece. *)
Definition generate_dockerfile (base_image : str) (packages : list str)
  : Run str :=
  let dockerfile :=
    List.concat
      [ [LF];
        u "    FROM "; base_image; [LF];
        [LF];
        u "    RUN apt-get update && "; [BACKSLASH]; [LF];
        u "        apt-get install -y "; [BACKSLASH]; [LF];
        u "        "; join (u " ") packages; u " && "; [BACKSLASH]; [LF];
        u "        rm -rf /var/lib/apt/lists/*"; [LF];
        [LF];
        u "    # Configure the application environment (set environment variables, working directory, user permissions, etc.)"; [LF];
        u "    # ..."; [LF];
        [LF];
        u "    # Define the default command to run when the container is started"; [LF];
        u "    # ENTRYPOINT or CMD instruction (e.g., CMD ["; [QUOTE];
          u "python"; [QUOTE]; u ", "; [QUOTE]; u "app.py"; [QUOTE];
          u "])"; [LF];
        u "    " ]
  in
  ret dockerfile.

(** [print(log.get('stream', '').strip())] *)
Definition print_stream (log : LogRecord) : Run unit :=
  print (strip (dict_get log (u "stream") [])).

(** [build_container_image(dockerfile, tag)], lines 82-102.  The build
    context is the temporary directory holding the one file written on
    line 86. *)
Definition build_container_image (dockerfile tag : str) : Run Image :=
  let tmpdir := [(u "Dockerfile", dockerfile)] in
  print (u "Building new container image: " ++ tag) ;;
  try_except
    (r <- call (ImagesBuild tmpdir tag true true)
               (images_build client tmpdir tag) ;;
     let '(new_image, build_logs) := r in
     for_each build_logs print_stream ;;
     ret new_image)
    (fun e =>
       match e with
       | BuildError _ build_log =>
           Some (print (u "Error building the new image: " ++ exn_str e) ;;
                 for_each build_log print_stream ;;
                 sys_exit 1%Z)
       | Exception _ _ =>
           Some (print (u "An unexpected error occurred while building the new image: "
                        ++ exn_str e) ;;
                 sys_exit 1%Z)
       | SystemExit _ => None
       end).

(** The command line after [parser.parse_args()]. *)
Record Args := { old_image : str; new_base_image : str; new_image : str }.

(** The script's top level, lines 115-127, once the arguments are parsed
    and [docker.from_env()] has given the client. *)
Definition main (args : Args) : Run unit :=
  old <- call (ImagesGet (old_image args))
              (images_get client (old_image args)) ;;
  installed_packages <- get_installed_packages old ;;
  dockerfile <- generate_dockerfile (new_base_image args) installed_packages ;;
  _ <- build_container_image dockerfile (new_image args) ;;
  print (u "New container image '" ++ new_image args
         ++ u "' has been built successfully.").

End Program.

(** The status the process ends with: 0 when the script runs to its end,
    the low eight bits of the code of an uncaught [SystemExit], 1 after
    any other uncaught exception. *)
Definition exit_status {A} (r : outcome A) : Z :=
  match r with
  | Returned _ => 0%Z
  | Raised (SystemExit code) => Z.land code 0xFF
  | Raised _ => 1%Z
  end.

(* ================================================================= *)
(** ** Vocabulary of the properties *)

(** The part of [s] before its first [sep]; all of [s] when it has none. *)
Fixpoint before_first (sep : N) (s : str) : str :=
  match s with
  | [] => []
  | c :: s' => if c =? sep then [] else c :: before_first sep s'
  end.

(** The code points of [s] up to its first whitespace. *)
Fixpoint until_space (s : str) : str :=
  match s with
  | [] => []
  | c :: s' => if isspace c then [] else c :: until_space s'
  end.

(** The first whitespace-delimited token of [s]. *)
Definition first_token (s : str) : str := until_space (lstrip s).

(** The number of positions of [s] at which [pat] occurs. *)
Fixpoint occurrences (pat s : str) : nat :=
  ((if startswith pat s then 1 else 0)
   + match s with
     | [] => 0
     | _ :: s' => occurrences pat s'
     end)%nat.

(** The engine calls of one extraction that runs to its end. *)
Definition probe_events (image : Image) : list event :=
  [ ContainersCreate (id image);
    PutArchive (u "/")
      [(u "list_installed_packages.sh", list_installed_packages_sh)];
    Start;
    ExecRun (u "/list_installed_packages.sh");
    Stop;
    Remove ].

(** Every engine operation of the extraction succeeds, the probe exiting
    with [exit_code] and printing [output]. *)
Definition probe_ok (client : Engine) (image : Image)
    (exit_code : Z) (output : bytes) : Prop :=
  containers_create client (id image) = Returned tt
  /\ (exists done, put_archive client = Returned done)
  /\ start client = Returned tt
  /\ exec_run client (u "/list_installed_packages.sh")
     = Returned (exit_code, output)
  /\ stop client = Returned tt
  /\ remove client = Returned tt.

Definition is_remove (ev : event) : bool :=
  match ev with
  | Remove => true
  | _ => false
  end.

(** How often the trace removes the container. *)
Definition removals (t : list event) : nat := List.length (filter is_remove t).

(** The recipe template as the specification words it: six lines. *)
Definition template_lines (base_image : str) (packages : list str)
  : list str :=
  [ u "FROM " ++ base_image;
    [];
    u "RUN apt-get update && " ++ [BACKSLASH];
    u "    apt-get install -y " ++ [BACKSLASH];
    u "    " ++ join (u " ") packages ++ u " && " ++ [BACKSLASH];
    u "    rm -rf /var/lib/apt/lists/*" ].

Definition recipe_template (base_image : str) (packages : list str) : str :=
  join [LF] (template_lines base_image packages).

(** Four more spaces in front of a line that is not blank. *)
Definition indent (line : str) : str :=
  match line with
  | [] => []
  | _ => u "    " ++ line
  end.

(** Every line followed by a line feed. *)
Definition unlines (lines : list str) : str :=
  List.concat (map (fun line => line ++ [LF]) lines).

(** What the generated recipe carries after the install step. *)
Definition trailing_comments : list str :=
  [ [];
    u "# Configure the application environment (set environment variables, working directory, user permissions, etc.)";
    u "# ...";
    [];
    u "# Define the default command to run when the container is started";
    u "# ENTRYPOINT or CMD instruction (e.g., CMD [" ++ [QUOTE] ++ u "python"
      ++ [QUOTE] ++ u ", " ++ [QUOTE] ++ u "app.py" ++ [QUOTE] ++ u "])" ].

(** The install step of a recipe with no package at all. *)
Definition empty_install_block : str :=
  List.concat
    [ u "    RUN apt-get update && "; [BACKSLASH]; [LF];
      u "        apt-get install -y "; [BACKSLASH]; [LF];
      u "         && "; [BACKSLASH]; [LF];
      u "        rm -rf /var/lib/apt/lists/*"; [LF] ].

(** *** Engines to run the program on *)

Definition demo_image : Image := {| id := u "sha256:4e5f" |}.

(** An engine on which everything succeeds and the probe prints [output]. *)
Definition engine_printing (output : bytes) : Engine :=
  {| images_get := fun _ => Returned demo_image;
     containers_create := fun _ => Returned tt;
     put_archive := Returned true;
     start := Returned tt;
     exec_run := fun _ => Returned (0%Z, output);
     stop := Returned tt;
     remove := Returned tt;
     images_build := fun _ _ => Returned (demo_image, []) |}.

(** An engine whose [exec_run] raises. *)
Definition engine_exec_raises : Engine :=
  {| images_get := fun _ => Returned demo_image;
     containers_create := fun _ => Returned tt;
     put_archive := Returned true;
     start := Returned tt;
     exec_run := fun _ =>
       Raised (Exception (u "APIError") (u "500 Server Error"));
     stop := Returned tt;
     remove := Returned tt;
     images_build := fun _ _ => Returned (demo_image, []) |}.

(** An engine whose build fails with two log records, the second without
    a stream. *)
Definition engine_build_fails : Engine :=
  {| images_get := fun _ => Returned demo_image;
     containers_create := fun _ => Returned tt;
     put_archive := Returned true;
     start := Returned tt;
     exec_run := fun _ => Returned (0%Z, b "apt");
     stop := Returned tt;
     remove := Returned tt;
     images_build := fun _ _ =>
       Raised (BuildError (u "The command returned a non-zero code: 100")
                 [ [(u "stream", u "Step 1/2 : FROM debian" ++ [LF])];
                   [(u "error", u "non-zero code: 100")] ]) |}.

(** Probe outputs. *)
Definition apt_output : bytes :=
  b "WARNING: apt does not have a stable CLI interface." ++ [x0a]
  ++ b "curl/stable 7.68 amd64" ++ [x0a]
  ++ b "not-a-package-line" ++ [x0a].

Definition scenario1_output : bytes :=
  b "curl/stable 7.68 amd64" ++ [x0a] ++ b "not-a-package-line".

Definition yum_output : bytes :=
  b "Loaded plugins: yum" ++ [x0a] ++ b "bash.x86_64 5.0 installed" ++ [x0a].

Definition scenario2_output : bytes := b "bash.x86_64 5.0 installed".

Definition slash_output : bytes := b "apt" ++ [x0a] ++ b "/usr/bin".


(* ================================================================= *)
(** ** Further vocabulary *)

(** A text a shell reads as one word: not empty and free of whitespace. *)
Definition is_word (s : str) : bool :=
  match s with
  | [] => false
  | _ => forallb (fun c => negb (isspace c)) s
  end.

(** No code point of [s] ends a line. *)
Definition no_linebreak (s : str) : bool :=
  forallb (fun c => negb (is_linebreak c)) s.

(** The recipe text in terms of the template's lines. *)
Definition recipe_of (base_image : str) (packages : list str) : str :=
  [LF]
  ++ unlines
       (map indent (template_lines base_image packages ++ trailing_comments))
  ++ u "    ".

Definition is_build (ev : event) : bool :=
  match ev with
  | ImagesBuild _ _ _ _ => true
  | _ => false
  end.

(** How often the trace calls the engine's build. *)
Definition builds (t : list event) : nat := List.length (filter is_build t).

(** The console lines of a build log. *)
Definition log_lines (logs : list LogRecord) : list event :=
  map (fun log => Stdout (strip (dict_get log (u "stream") []))) logs.

(** The three console events of the extraction's except clause. *)
Definition failure_report (e : exn) : list event :=
  [ Stdout (u "Exception: " ++ exn_str e);
    Traceback e;
    Stdout (u "Failed to list installed packages in the old image:") ].

Definition is_system_exit {A} (r : outcome A) : bool :=
  match r with
  | Raised (SystemExit _) => true
  | _ => false
  end.

(** No operation of the engine raises SystemExit. *)
Definition never_exits (client : Engine) : Prop :=
  (forall name, is_system_exit (images_get client name) = false)
  /\ (forall image_id, is_system_exit (containers_create client image_id) = false)
  /\ is_system_exit (put_archive client) = false
  /\ is_system_exit (start client) = false
  /\ (forall cmd, is_system_exit (exec_run client cmd) = false)
  /\ is_system_exit (stop client) = false
  /\ is_system_exit (remove client) = false
  /\ (forall context tag, is_system_exit (images_build client context tag) = false).

(** An engine given by the answers of its operations. *)
Definition engine_of (get : outcome Image) (create : outcome unit)
    (put : outcome bool) (started : outcome unit)
    (executed : outcome (Z * bytes)) (stopped removed : outcome unit)
    (built : outcome (Image * list LogRecord)) : Engine :=
  {| images_get := fun _ => get;
     containers_create := fun _ => create;
     put_archive := put;
     start := started;
     exec_run := fun _ => executed;
     stop := stopped;
     remove := removed;
     images_build := fun _ _ => built |}.

Definition api_error : exn := Exception (u "APIError") (u "409 Conflict").

Definition demo_args : Args :=
  {| old_image := u "app:1"; new_base_image := u "debian:12";
     new_image := u "app:2" |}.

Definition demo_logs : list LogRecord :=
  [ [(u "stream", u "Step 1/2 : FROM debian:12" ++ [LF])];
    [(u "aux", u "sha256:77aa")];
    [(u "stream", u " ---> 77aa" ++ [LF])] ].

(** Every stage of the script succeeds: the old image is found, every
    engine call of the extraction succeeds, the parsing of the output
    returns an inventory, and the engine builds the recipe of the new base
    image and that inventory under the requested tag. *)
Definition pipeline_succeeds (client : Engine) (args : Args) : Prop :=
  exists old exit_code output inventory built build_logs,
    images_get client (old_image args) = Returned old
    /\ probe_ok client old exit_code output
    /\ snd (parse_installed_packages output []) = Returned inventory
    /\ images_build client
         [(u "Dockerfile", recipe_of (new_base_image args) inventory)]
         (new_image args)
       = Returned (built, build_logs).

(** The log of a build that fails while pulling the base image: a pull
    status, a build step and the error record. *)
Definition pull_failure_log : list LogRecord :=
  [ [(u "status", u "Pulling from library/debian")];
    [(u "stream", u "Step 1/2 : FROM debian" ++ [LF])];
    [(u "error", u "manifest unknown")] ].

Definition engine_pull_fails : Engine :=
  engine_of (Returned demo_image) (Returned tt) (Returned true)
    (Returned tt) (Returned (0%Z, b "apt")) (Returned tt) (Returned tt)
    (Raised (BuildError (u "pull access denied for debian")
               pull_failure_log)).

(* ================================================================= *)
(** ** The monad's equations *)

Lemma bind_returned {A B} (m : Run A) (k : A -> Run B) t t' a :
  m t = (t', Returned a) -> bind m k t = k a t'.
Proof. intros H. unfold bind. rewrite H. reflexivity. Qed.

Lemma bind_raised {A B} (m : Run A) (k : A -> Run B) t t' e :
  m t = (t', Raised e) -> bind m k t = (t', Raised e).
Proof. intros H. unfold bind. rewrite H. reflexivity. Qed.

Lemma comprehension_pure {A B} (cond : A -> bool) (f : A -> Run B)
    (g : A -> B) (l : list A) :
  (forall x t, In x l -> cond x = true -> f x t = (t, Returned (g x))) ->
  forall t, comprehension l cond f t = (t, Returned (map g (filter cond l))).
Proof.
  induction l as [|x l IH]; intros Hf t; simpl.
  - reflexivity.
  - destruct (cond x) eqn:Hc.
    + rewrite (bind_returned _ _ t t (g x)) by (apply Hf; simpl; auto).
      rewrite (bind_returned _ _ t t (map g (filter cond l))).
      * reflexivity.
      * apply IH. intros y t0 Hy. apply Hf. simpl. auto.
    + apply IH. intros y t0 Hy. apply Hf. simpl. auto.
Qed.

Lemma for_each_print_stream (logs : list LogRecord) :
  forall t,
    for_each logs print_stream t
    = (t ++ map (fun log => Stdout (strip (dict_get log (u "stream") []))) logs,
       Returned tt).
Proof.
  induction logs as [|log logs IH]; intros t; simpl.
  - unfold ret. rewrite app_nil_r. reflexivity.
  - unfold bind, print_stream, print, call. rewrite IH.
    rewrite <- app_assoc. reflexivity.
Qed.

(* ================================================================= *)
(** ** Facts about the text built-ins *)

Lemma split_head (sep : N) (s : str) :
  exists rest, split sep s = before_first sep s :: rest.
Proof.
  induction s as [|c s [rest IH]]; simpl.
  - exists []. reflexivity.
  - destruct (c =? sep).
    + eexists. reflexivity.
    + rewrite IH. eexists. reflexivity.
Qed.

Lemma item0_split (sep : N) (s : str) (t : list event) :
  item0 (split sep s) t = (t, Returned (before_first sep s)).
Proof. destruct (split_head sep s) as [rest ->]. reflexivity. Qed.

Lemma contains_char_inv (c x : N) (s : str) :
  contains [c] (x :: s) = true -> x = c \/ contains [c] s = true.
Proof.
  simpl. destruct (c =? x) eqn:E.
  - apply N.eqb_eq in E. auto.
  - simpl. auto.
Qed.

Lemma contains_dot_not_blank (s : str) :
  contains (u ".") s = true -> lstrip s <> [].
Proof.
  change (u ".") with [46].
  induction s as [|c s IH]; intros H.
  - discriminate H.
  - simpl. destruct (isspace c) eqn:Hc.
    + apply contains_char_inv in H. destruct H as [-> | H].
      * discriminate Hc.
      * auto.
    + discriminate.
Qed.

Lemma lstrip_not_space (c : N) (s : str) :
  isspace c = false -> lstrip (c :: s) = c :: s.
Proof. intros H. simpl. rewrite H. reflexivity. Qed.

Lemma split_ws_head (s : str) :
  lstrip s <> [] -> exists rest, split_ws s = first_token s :: rest.
Proof.
  unfold first_token.
  induction s as [|c s IH]; intros H.
  - exfalso. apply H. reflexivity.
  - simpl in *. destruct (isspace c) eqn:Hc.
    + auto.
    + simpl. rewrite Hc. destruct s as [|d s].
      * exists []. reflexivity.
      * destruct (isspace d) eqn:Hd.
        -- simpl. rewrite Hd. eexists. reflexivity.
        -- destruct IH as [rest IH].
           ++ rewrite lstrip_not_space by exact Hd. discriminate.
           ++ rewrite IH. rewrite lstrip_not_space by exact Hd.
              eexists. reflexivity.
Qed.

Lemma item0_split_ws (s : str) (t : list event) :
  lstrip s <> [] -> item0 (split_ws s) t = (t, Returned (first_token s)).
Proof.
  intros H. destruct (split_ws_head s H) as [rest ->]. reflexivity.
Qed.

Lemma startswith_barrier (q : N) (rest : str) :
  forall pat s, pat <> [] -> ~ In q pat ->
    startswith pat (s ++ q :: rest) = startswith pat s.
Proof.
  induction pat as [|p pat IH]; intros s Hne Hq.
  - contradiction.
  - destruct s as [|c s]; simpl.
    + destruct (p =? q) eqn:E.
      * apply N.eqb_eq in E. exfalso. apply Hq. left. exact E.
      * reflexivity.
    + destruct pat as [|p' pat].
      * reflexivity.
      * rewrite IH.
        -- reflexivity.
        -- discriminate.
        -- intros Hin. apply Hq. right. exact Hin.
Qed.

Lemma occurrences_cons (pat : str) (c : N) (s : str) :
  occurrences pat (c :: s)
  = ((if startswith pat (c :: s) then 1 else 0) + occurrences pat s)%nat.
Proof. reflexivity. Qed.

Lemma occurrences_skip (p : N) (pat : str) (c : N) (s : str) :
  (p =? c) = false -> occurrences (p :: pat) (c :: s) = occurrences (p :: pat) s.
Proof. intros H. rewrite occurrences_cons. simpl. rewrite H. reflexivity. Qed.

Lemma occurrences_barrier (pat : str) (q : N) (rest : str) :
  pat <> [] -> ~ In q pat ->
  forall s,
    occurrences pat (s ++ q :: rest)
    = (occurrences pat s + occurrences pat (q :: rest))%nat.
Proof.
  intros Hne Hq. induction s as [|c s IH].
  - destruct pat; [contradiction | reflexivity].
  - change ((c :: s) ++ q :: rest) with (c :: (s ++ q :: rest)).
    rewrite (occurrences_cons pat c (s ++ q :: rest)).
    rewrite (occurrences_cons pat c s).
    change (c :: s ++ q :: rest) with ((c :: s) ++ q :: rest).
    rewrite startswith_barrier by assumption.
    rewrite IH. destruct (startswith pat (c :: s)); lia.
Qed.

(* ================================================================= *)
(** ** The extractor, stage by stage *)

Lemma decode_utf_8_ok (output : bytes) (text : str) (t : list event) :
  decode output = Some text -> decode_utf_8 output t = (t, Returned text).
Proof. intros H. unfold decode_utf_8. rewrite H. reflexivity. Qed.

Lemma parse_apt (output : bytes) (text : str) (t : list event) :
  decode output = Some text ->
  contains (u "apt") text = true ->
  parse_installed_packages output t
  = (t, Returned (map (before_first 47)
                    (filter (contains (u "/")) (splitlines text)))).
Proof.
  intros Hd Ha. unfold parse_installed_packages.
  rewrite (bind_returned _ _ t t text) by (apply decode_utf_8_ok; exact Hd).
  rewrite Ha.
  rewrite (bind_returned _ _ t t text) by (apply decode_utf_8_ok; exact Hd).
  apply comprehension_pure. intros line t0 _ _. apply item0_split.
Qed.

Lemma parse_yum (output : bytes) (text : str) (t : list event) :
  decode output = Some text ->
  contains (u "apt") text = false ->
  contains (u "yum") text = true ->
  parse_installed_packages output t
  = (t, Returned (map first_token
                    (filter (contains (u ".")) (splitlines text)))).
Proof.
  intros Hd Ha Hy. unfold parse_installed_packages.
  rewrite (bind_returned _ _ t t text) by (apply decode_utf_8_ok; exact Hd).
  rewrite Ha.
  rewrite (bind_returned _ _ t t text) by (apply decode_utf_8_ok; exact Hd).
  rewrite Hy.
  rewrite (bind_returned _ _ t t text) by (apply decode_utf_8_ok; exact Hd).
  apply comprehension_pure. intros line t0 _ Hdot.
  apply item0_split_ws. apply contains_dot_not_blank. exact Hdot.
Qed.

Lemma parse_unmarked (output : bytes) (text : str) (t : list event) :
  decode output = Some text ->
  contains (u "apt") text = false ->
  contains (u "yum") text = false ->
  parse_installed_packages output t = (t, Returned []).
Proof.
  intros Hd Ha Hy. unfold parse_installed_packages.
  rewrite (bind_returned _ _ t t text) by (apply decode_utf_8_ok; exact Hd).
  rewrite Ha.
  rewrite (bind_returned _ _ t t text) by (apply decode_utf_8_ok; exact Hd).
  rewrite Hy. reflexivity.
Qed.

Lemma extraction_after_probe (client : Engine) (image : Image)
    (exit_code : Z) (output : bytes) (t : list event) :
  probe_ok client image exit_code output ->
  get_installed_packages client image t
  = parse_installed_packages output (t ++ probe_events image).
Proof.
  intros (Hc & [done Hp] & Hs & He & Hst & Hr).
  unfold get_installed_packages, try_except, bind, call, ret.
  rewrite Hc, Hp, Hs, He, Hst, Hr. unfold probe_events.
  repeat rewrite <- app_assoc. reflexivity.
Qed.

Lemma probe_ok_engine_printing (output : bytes) :
  probe_ok (engine_printing output) demo_image 0%Z output.
Proof.
  unfold probe_ok. simpl. repeat split. exists true. reflexivity.
Qed.

Lemma removals_app (t1 t2 : list event) :
  removals (t1 ++ t2) = (removals t1 + removals t2)%nat.
Proof. unfold removals. rewrite filter_app, length_app. reflexivity. Qed.

(** On the path where every engine call succeeds the container is removed
    exactly once, whatever the parsing of the output then does. *)
Lemma removed_once_when_probe_ok (client : Engine) (image : Image)
    (exit_code : Z) (output : bytes) (t : list event) :
  probe_ok client image exit_code output ->
  removals (fst (get_installed_packages client image t))
  = (removals t + 1)%nat.
Proof.
  intros H. rewrite (extraction_after_probe _ _ _ _ _ H).
  assert (Hp : forall t0, fst (parse_installed_packages output t0) = t0).
  { intros t0. unfold parse_installed_packages, decode_utf_8, bind, ret, raise.
    destruct (decode output) as [text|]; [|reflexivity].
    destruct (contains (u "apt") text).
    - match goal with
      | |- context [comprehension ?l ?c ?f] =>
          assert (Hc : forall l0 t1, fst (comprehension l0 c f t1) = t1)
      end.
      { induction l0 as [|x l0 IH]; intros t1; simpl; [reflexivity|].
        destruct (contains (u "/") x); [|apply IH].
        unfold bind. rewrite item0_split.
        specialize (IH t1).
        destruct (comprehension l0 _ _ t1) as [t2 [ys|e]];
          simpl in *; subst; reflexivity. }
      specialize (Hc (splitlines text) t0).
      destruct (comprehension _ _ _ t0) as [t2 r]. exact Hc.
    - destruct (contains (u "yum") text); [|reflexivity].
      match goal with
      | |- context [comprehension ?l ?c ?f] =>
          assert (Hc : forall l0 t1, fst (comprehension l0 c f t1) = t1)
      end.
      { induction l0 as [|x l0 IH]; intros t1; simpl; [reflexivity|].
        destruct (contains (u ".") x); [|apply IH].
        unfold bind, item0. specialize (IH t1).
        destruct (split_ws x); simpl; [reflexivity|].
        destruct (comprehension l0 _ _ t1) as [t2 [ys|e]];
          simpl in *; subst; reflexivity. }
      specialize (Hc (splitlines text) t0).
      destruct (comprehension _ _ _ t0) as [t2 r]. exact Hc. }
  rewrite Hp, removals_app. reflexivity.
Qed.

(* ================================================================= *)
(** ** The package inventory extractor *)

(** C1 (as the code has it): whenever the extraction's engine calls succeed
    and the decoded probe output contains the marker apt, the inventory is
    the part before the first slash of every line that contains a slash, in
    the order of the output, whatever other lines lie between them. *)
Theorem apt_inventory (client : Engine) (image : Image) (exit_code : Z)
    (output : bytes) (text : str) (t : list event) :
  probe_ok client image exit_code output ->
  decode output = Some text ->
  contains (u "apt") text = true ->
  snd (get_installed_packages client image t)
  = Returned (map (before_first 47)
                (filter (contains (u "/")) (splitlines text))).
Proof.
  intros Hp Hd Ha.
  rewrite (extraction_after_probe _ _ _ _ _ Hp).
  rewrite (parse_apt _ _ _ Hd Ha). reflexivity.
Qed.

Lemma apt_inventory_witness :
  probe_ok (engine_printing apt_output) demo_image 0%Z apt_output
  /\ contains (u "apt")
       (u "WARNING: apt does not have a stable CLI interface." ++ [LF]
        ++ u "curl/stable 7.68 amd64" ++ [LF]
        ++ u "not-a-package-line" ++ [LF]) = true
  /\ snd (get_installed_packages (engine_printing apt_output) demo_image [])
     = Returned [u "curl"].
Proof.
  split; [apply probe_ok_engine_printing | split; [reflexivity |]].
  apply (apt_inventory (engine_printing apt_output) demo_image 0%Z apt_output
           (u "WARNING: apt does not have a stable CLI interface." ++ [LF]
            ++ u "curl/stable 7.68 amd64" ++ [LF]
            ++ u "not-a-package-line" ++ [LF]) []).
  - apply probe_ok_engine_printing.
  - reflexivity.
  - reflexivity.
Defined.

(** C1 fails as stated: the two lines of scenario 1 carry no marker, and
    their inventory is empty, not the one name curl. *)
Lemma scenario1_inventory_is_empty :
  decode scenario1_output
  = Some (u "curl/stable 7.68 amd64" ++ [LF] ++ u "not-a-package-line")
  /\ snd (get_installed_packages (engine_printing scenario1_output)
            demo_image [])
     = Returned []
  /\ snd (get_installed_packages (engine_printing scenario1_output)
            demo_image [])
     <> Returned [u "curl"].
Proof.
  split; [reflexivity | split; [reflexivity |]].
  vm_compute. discriminate.
Qed.

(** C4 (as the code has it): whenever the extraction's engine calls succeed
    and the decoded probe output contains the marker yum and not the marker
    apt, the inventory is the first whitespace-delimited token of every
    line that contains a dot, in the order of the output. *)
Theorem yum_inventory (client : Engine) (image : Image) (exit_code : Z)
    (output : bytes) (text : str) (t : list event) :
  probe_ok client image exit_code output ->
  decode output = Some text ->
  contains (u "apt") text = false ->
  contains (u "yum") text = true ->
  snd (get_installed_packages client image t)
  = Returned (map first_token
                (filter (contains (u ".")) (splitlines text))).
Proof.
  intros Hp Hd Ha Hy.
  rewrite (extraction_after_probe _ _ _ _ _ Hp).
  rewrite (parse_yum _ _ _ Hd Ha Hy). reflexivity.
Qed.

Lemma yum_inventory_witness :
  probe_ok (engine_printing yum_output) demo_image 0%Z yum_output
  /\ contains (u "yum")
       (u "Loaded plugins: yum" ++ [LF]
        ++ u "bash.x86_64 5.0 installed" ++ [LF]) = true
  /\ snd (get_installed_packages (engine_printing yum_output) demo_image [])
     = Returned [u "bash.x86_64"].
Proof.
  split; [apply probe_ok_engine_printing | split; [reflexivity |]].
  apply (yum_inventory (engine_printing yum_output) demo_image 0%Z yum_output
           (u "Loaded plugins: yum" ++ [LF]
            ++ u "bash.x86_64 5.0 installed" ++ [LF]) []).
  - apply probe_ok_engine_printing.
  - reflexivity.
  - reflexivity.
  - reflexivity.
Defined.

(** C4 fails as stated: the single line of scenario 2 carries no marker,
    and its inventory is empty, not the one name bash. *)
Lemma scenario2_inventory_is_empty :
  decode scenario2_output = Some (u "bash.x86_64 5.0 installed")
  /\ snd (get_installed_packages (engine_printing scenario2_output)
            demo_image [])
     = Returned []
  /\ snd (get_installed_packages (engine_printing scenario2_output)
            demo_image [])
     <> Returned [u "bash"].
Proof.
  split; [reflexivity | split; [reflexivity |]].
  vm_compute. discriminate.
Qed.

(** C5: whenever the extraction's engine calls succeed and the decoded
    probe output contains neither apt nor yum, the extraction returns the
    empty inventory and raises nothing; the trace gains the six engine
    calls only. *)
Theorem unmarked_output_gives_empty_inventory (client : Engine)
    (image : Image) (exit_code : Z) (output : bytes) (text : str)
    (t : list event) :
  probe_ok client image exit_code output ->
  decode output = Some text ->
  contains (u "apt") text = false ->
  contains (u "yum") text = false ->
  get_installed_packages client image t
  = (t ++ probe_events image, Returned []).
Proof.
  intros Hp Hd Ha Hy.
  rewrite (extraction_after_probe _ _ _ _ _ Hp).
  apply (parse_unmarked _ _ _ Hd Ha Hy).
Qed.

Lemma unmarked_output_witness :
  probe_ok (engine_printing scenario2_output) demo_image 0%Z scenario2_output
  /\ get_installed_packages (engine_printing scenario2_output) demo_image []
     = (probe_events demo_image, Returned []).
Proof.
  split; [apply probe_ok_engine_printing |].
  apply (unmarked_output_gives_empty_inventory
           (engine_printing scenario2_output) demo_image 0%Z scenario2_output
           (u "bash.x86_64 5.0 installed") []).
  - apply probe_ok_engine_printing.
  - reflexivity.
  - reflexivity.
  - reflexivity.
Defined.

(** C9: an inventory may hold the empty name.  Whenever the decoded probe
    output contains apt and has a line that begins with a slash, the
    inventory returned contains the empty string. *)
Theorem empty_name_in_inventory (client : Engine) (image : Image)
    (exit_code : Z) (output : bytes) (text rest : str) (t : list event) :
  probe_ok client image exit_code output ->
  decode output = Some text ->
  contains (u "apt") text = true ->
  In (47 :: rest) (splitlines text) ->
  exists inventory,
    snd (get_installed_packages client image t) = Returned inventory
    /\ In [] inventory.
Proof.
  intros Hp Hd Ha Hl. eexists. split.
  - rewrite (extraction_after_probe _ _ _ _ _ Hp).
    rewrite (parse_apt _ _ _ Hd Ha). reflexivity.
  - change [] with (before_first 47 (47 :: rest)).
    apply in_map. apply filter_In. split; [exact Hl | reflexivity].
Qed.

Lemma empty_name_witness :
  probe_ok (engine_printing slash_output) demo_image 0%Z slash_output
  /\ In (47 :: u "usr/bin") (splitlines (u "apt" ++ [LF] ++ u "/usr/bin"))
  /\ exists inventory,
       snd (get_installed_packages (engine_printing slash_output)
              demo_image [])
       = Returned inventory
       /\ In [] inventory.
Proof.
  split; [apply probe_ok_engine_printing | split; [right; left; reflexivity |]].
  apply (empty_name_in_inventory (engine_printing slash_output) demo_image
           0%Z slash_output (u "apt" ++ [LF] ++ u "/usr/bin") (u "usr/bin") []).
  - apply probe_ok_engine_printing.
  - reflexivity.
  - reflexivity.
  - right. left. reflexivity.
Defined.

(** C10: in the yum branch the parsing never fails.  For decoded output
    that contains yum and not apt, indexing the tokens of any line that
    contains a dot returns, and so does the whole parsing step, with one
    inventory entry for each such line. *)
Theorem yum_parsing_total (output : bytes) (text : str) (t : list event) :
  decode output = Some text ->
  contains (u "apt") text = false ->
  contains (u "yum") text = true ->
  (forall line, contains (u ".") line = true ->
     split_ws line <> []
     /\ exists token, item0 (split_ws line) t = (t, Returned token))
  /\ exists inventory,
       parse_installed_packages output t = (t, Returned inventory)
       /\ List.length inventory
          = List.length (filter (contains (u ".")) (splitlines text)).
Proof.
  intros Hd Ha Hy. split.
  - intros line Hdot.
    destruct (split_ws_head line (contains_dot_not_blank line Hdot))
      as [rest E].
    rewrite E. split; [discriminate |].
    eexists. reflexivity.
  - eexists. split.
    + apply (parse_yum _ _ _ Hd Ha Hy).
    + apply length_map.
Qed.

Lemma yum_parsing_total_witness :
  decode yum_output
  = Some (u "Loaded plugins: yum" ++ [LF]
          ++ u "bash.x86_64 5.0 installed" ++ [LF])
  /\ exists inventory,
       parse_installed_packages yum_output [] = ([], Returned inventory)
       /\ List.length inventory = 1%nat.
Proof.
  split; [reflexivity |].
  destruct (yum_parsing_total yum_output
              (u "Loaded plugins: yum" ++ [LF]
               ++ u "bash.x86_64 5.0 installed" ++ [LF]) []
              eq_refl eq_refl eq_refl) as [_ [inventory [E L]]].
  exists inventory. split; [exact E | exact L].
Defined.

(** C2 fails on the code: when [exec_run] raises, the handler prints and
    exits; the container, created and started, is neither stopped nor
    removed. *)
Theorem container_leaks_when_exec_raises :
  snd (get_installed_packages engine_exec_raises demo_image [])
  = Raised (SystemExit 1)
  /\ removals (fst (get_installed_packages engine_exec_raises demo_image []))
     = 0%nat
  /\ In Start (fst (get_installed_packages engine_exec_raises demo_image []))
  /\ ~ In Stop (fst (get_installed_packages engine_exec_raises demo_image [])).
Proof.
  split; [reflexivity | split; [reflexivity | split]].
  - vm_compute. tauto.
  - vm_compute. intros H.
    repeat (destruct H as [H | H]; [discriminate H |]). exact H.
Qed.

(* ================================================================= *)
(** ** The recipe generator *)

Lemma generate_dockerfile_split (base_image : str) (packages : list str)
    (t : list event) :
  generate_dockerfile base_image packages t
  = (t, Returned
          (([LF] ++ u "    FROM ") ++ base_image
           ++ LF :: unlines
                      (map indent
                         (tl (template_lines base_image packages)
                          ++ trailing_comments))
           ++ u "    ")).
Proof.
  unfold generate_dockerfile, ret. do 2 f_equal.
  unfold template_lines, trailing_comments, unlines.
  cbn. repeat rewrite <- app_assoc. cbn. reflexivity.
Qed.

(** C3 (as the code has it): the generated recipe is a line feed, then the
    six lines of the template and six further lines of comments, every
    line that is not blank indented by four more spaces and every line
    ended by a line feed, then four spaces. *)
Theorem generate_dockerfile_layout (base_image : str) (packages : list str)
    (t : list event) :
  generate_dockerfile base_image packages t
  = (t, Returned
          ([LF]
           ++ unlines
                (map indent
                   (template_lines base_image packages ++ trailing_comments))
           ++ u "    ")).
Proof.
  rewrite generate_dockerfile_split. do 2 f_equal.
  unfold template_lines, unlines.
  cbn. repeat (rewrite <- !app_assoc; cbn). reflexivity.
Qed.

(** C3 fails as stated: the recipe for base debian and the one package
    curl is not the bare template. *)
Lemma recipe_is_not_the_bare_template :
  snd (generate_dockerfile (u "debian") [u "curl"] [])
  <> Returned (recipe_template (u "debian") [u "curl"]).
Proof. vm_compute. discriminate. Qed.

(** C6: the generator is pure.  For every base image and package list
    there is one recipe text that every call returns, from any trace,
    raising nothing and leaving the trace as it was; two calls in a row
    return that text twice. *)
Theorem generate_dockerfile_pure (base_image : str) (packages : list str) :
  exists dockerfile,
    (forall t,
       generate_dockerfile base_image packages t = (t, Returned dockerfile))
    /\ (forall t,
          (d1 <- generate_dockerfile base_image packages ;;
           d2 <- generate_dockerfile base_image packages ;;
           ret (d1, d2)) t
          = (t, Returned (dockerfile, dockerfile))).
Proof.
  eexists. split.
  - intros t. apply generate_dockerfile_split.
  - intros t.
    rewrite (bind_returned _ _ t t _ (generate_dockerfile_split _ _ t)).
    rewrite (bind_returned _ _ t t _ (generate_dockerfile_split _ _ t)).
    reflexivity.
Qed.

(** C7 (as the code has it): for every base image the recipe for no
    package holds FROM and the base image on a line of its own, indented by
    four spaces, then a blank line and the whole install step with nothing
    between the install command and its closing connective; the recipe for
    the packages a and b holds the text a b once more often than the base
    image does, on the install step's package line. *)
Theorem generate_dockerfile_contents (base_image : str) (t : list event) :
  (exists post,
     snd (generate_dockerfile base_image [] t)
     = Returned ([LF] ++ u "    FROM " ++ base_image ++ [LF] ++ [LF]
                 ++ empty_install_block ++ post))
  /\ (exists dockerfile,
        snd (generate_dockerfile base_image [u "a"; u "b"] t)
        = Returned dockerfile
        /\ occurrences (u "a b") dockerfile
           = (1 + occurrences (u "a b") base_image)%nat
        /\ exists pre post,
             dockerfile
             = pre ++ u "apt-get install -y " ++ [BACKSLASH; LF]
               ++ u "        a b && " ++ [BACKSLASH; LF] ++ post).
Proof.
  split.
  - rewrite generate_dockerfile_split. eexists. cbn. reflexivity.
  - rewrite generate_dockerfile_split. eexists. split; [reflexivity |]. split.
    + cbn -[occurrences].
      repeat rewrite occurrences_skip by reflexivity.
      rewrite occurrences_barrier.
      * match goal with
        | |- (_ + ?n)%nat = _ =>
            let v := eval vm_compute in n in change n with v
        end.
        lia.
      * discriminate.
      * vm_compute. intros H.
        repeat (destruct H as [H | H]; [discriminate H |]). exact H.
    + exists ([LF] ++ u "    FROM " ++ base_image ++ [LF] ++ [LF]
              ++ u "    RUN apt-get update && " ++ [BACKSLASH; LF]
              ++ u "        ").
      eexists. cbn. repeat rewrite <- app_assoc. cbn. reflexivity.
Qed.

(** C7 fails as stated: with the base image a b the recipe for the
    packages a and b holds the text a b twice. *)
Lemma recipe_holds_a_b_twice :
  exists dockerfile,
    snd (generate_dockerfile (u "a b") [u "a"; u "b"] []) = Returned dockerfile
    /\ occurrences (u "a b") dockerfile = 2%nat.
Proof. eexists. split; [reflexivity | vm_compute; reflexivity]. Qed.

(* ================================================================= *)
(** ** The image builder *)

(** C8 (as the code has it): whenever the engine answers the build with
    a BuildError, the builder has printed its banner and called the build
    once, prints the error line with the failure's message and then, for
    every record of the failure's log in order, the record's stream text
    without the whitespace around it, an empty line when the record has
    no stream, whose other fields are not printed; it then raises
    SystemExit with code 1: no image is returned, whatever follows the
    call is not run, and the process status is 1. *)
Theorem build_failure_is_reported_then_exits (client : Engine)
    (dockerfile tag msg : str) (build_log : list LogRecord)
    (t : list event) :
  images_build client [(u "Dockerfile", dockerfile)] tag
  = Raised (BuildError msg build_log) ->
  build_container_image client dockerfile tag t
  = (t ++ [ Stdout (u "Building new container image: " ++ tag);
            ImagesBuild [(u "Dockerfile", dockerfile)] tag true true;
            Stdout (u "Error building the new image: " ++ msg) ]
       ++ map (fun log => Stdout (strip (dict_get log (u "stream") [])))
            build_log,
     Raised (SystemExit 1))
  /\ forall (B : Type) (k : Image -> Run B),
       exit_status
         (snd ((image <- build_container_image client dockerfile tag ;;
                k image) t))
       = 1%Z.
Proof.
  intros Hb.
  assert (E : build_container_image client dockerfile tag t
              = (t ++ [ Stdout (u "Building new container image: " ++ tag);
                        ImagesBuild [(u "Dockerfile", dockerfile)] tag
                          true true;
                        Stdout (u "Error building the new image: " ++ msg) ]
                   ++ map (fun log =>
                             Stdout (strip (dict_get log (u "stream") [])))
                        build_log,
                 Raised (SystemExit 1))).
  { unfold build_container_image, try_except, bind, print, call, sys_exit,
      raise.
    rewrite Hb. cbn [exn_str]. rewrite for_each_print_stream.
    repeat rewrite <- app_assoc. reflexivity. }
  split; [exact E |].
  intros B k. rewrite (bind_raised _ _ _ _ _ E). reflexivity.
Qed.

Lemma build_failure_witness :
  images_build engine_build_fails [(u "Dockerfile", u "FROM x")] (u "app:2")
  = Raised (BuildError (u "The command returned a non-zero code: 100")
              [ [(u "stream", u "Step 1/2 : FROM debian" ++ [LF])];
                [(u "error", u "non-zero code: 100")] ])
  /\ build_container_image engine_build_fails (u "FROM x") (u "app:2") []
     = ([ Stdout (u "Building new container image: app:2");
          ImagesBuild [(u "Dockerfile", u "FROM x")] (u "app:2") true true;
          Stdout (u "Error building the new image: The command returned a non-zero code: 100");
          Stdout (u "Step 1/2 : FROM debian");
          Stdout [] ],
        Raised (SystemExit 1)).
Proof.
  split; [reflexivity |].
  apply (build_failure_is_reported_then_exits engine_build_fails
           (u "FROM x") (u "app:2")
           (u "The command returned a non-zero code: 100")
           [ [(u "stream", u "Step 1/2 : FROM debian" ++ [LF])];
             [(u "error", u "non-zero code: 100")] ]
           [] eq_refl).
Defined.

(** C8 fails as stated: of a failure whose log holds a pull status, a
    build step and an error record, only the build step is printed; the
    text of the status record reaches no printed line, an empty line
    stands in its place. *)
Lemma status_record_is_not_printed :
  In [(u "status", u "Pulling from library/debian")] pull_failure_log
  /\ build_container_image engine_pull_fails (u "FROM debian") (u "app:2") []
     = ([ Stdout (u "Building new container image: app:2");
          ImagesBuild [(u "Dockerfile", u "FROM debian")] (u "app:2")
            true true;
          Stdout (u "Error building the new image: pull access denied for debian");
          Stdout [];
          Stdout (u "Step 1/2 : FROM debian");
          Stdout [] ],
        Raised (SystemExit 1))
  /\ forall line,
       In (Stdout line)
          (fst (build_container_image engine_pull_fails (u "FROM debian")
                  (u "app:2") [])) ->
       contains (u "Pulling from library/debian") line = false.
Proof.
  split; [left; reflexivity |]. split; [reflexivity |].
  intros line H. vm_compute in H.
  repeat (destruct H as [H | H];
          [ try discriminate H; injection H as <-; vm_compute; reflexivity |]).
  contradiction.
Qed.

(* ================================================================= *)
(** ** The failure path of the extraction, for any engine *)

(** Whatever exception of class Exception [exec_run] raises on a started
    container, the extraction ends in SystemExit 1 without one more
    removal in the trace. *)
Lemma no_removal_when_exec_raises (client : Engine) (image : Image)
    (cls msg : str) (t : list event) :
  containers_create client (id image) = Returned tt ->
  (exists done, put_archive client = Returned done) ->
  start client = Returned tt ->
  exec_run client (u "/list_installed_packages.sh")
  = Raised (Exception cls msg) ->
  snd (get_installed_packages client image t) = Raised (SystemExit 1)
  /\ removals (fst (get_installed_packages client image t)) = removals t.
Proof.
  intros Hc [done Hp] Hs He.
  unfold get_installed_packages, try_except, bind, print, print_exc,
    sys_exit, raise, call.
  rewrite Hc, Hp, Hs, He. cbn [fst snd]. split; [reflexivity |].
  repeat rewrite removals_app. unfold removals. simpl. lia.
Qed.

(* ================================================================= *)
(** ** The whole script on two engines *)

(** When the build fails the script ends with status 1 and never prints
    its closing line; the container of the extraction was removed once. *)
Lemma main_build_failure_exits_1 :
  let run :=
    main engine_build_fails
      {| old_image := u "app:1"; new_base_image := u "debian:12";
         new_image := u "app:2" |} [] in
  exit_status (snd run) = 1%Z
  /\ removals (fst run) = 1%nat
  /\ ~ In (Stdout (u "New container image 'app:2' has been built successfully."))
         (fst run).
Proof.
  split; [reflexivity | split; [reflexivity |]].
  vm_compute. intros H.
  repeat (destruct H as [H | H]; [discriminate H |]). exact H.
Qed.

(** When every engine call succeeds the script ends with status 0, its
    last output being the closing line. *)
Lemma main_success_exits_0 :
  let run :=
    main (engine_printing apt_output)
      {| old_image := u "app:1"; new_base_image := u "debian:12";
         new_image := u "app:2" |} [] in
  exit_status (snd run) = 0%Z
  /\ last (fst run) Start
     = Stdout (u "New container image 'app:2' has been built successfully.").
Proof. split; vm_compute; reflexivity. Qed.

(* ================================================================= *)
(** ** More on the extraction: traces and failure paths *)

Lemma comprehension_traceless {A B} (cond : A -> bool) (f : A -> Run B)
    (l : list A) :
  (forall x, exists r, forall t, f x t = (t, r)) ->
  exists r, forall t, comprehension l cond f t = (t, r).
Proof.
  intros Hf. induction l as [|x l [rl IH]]; simpl.
  - eexists. intros t. reflexivity.
  - destruct (cond x).
    + destruct (Hf x) as [[y|e] Hx].
      * destruct rl as [ys|e].
        -- exists (Returned (y :: ys)). intros t.
           unfold bind. rewrite Hx, IH. reflexivity.
        -- exists (Raised e). intros t.
           unfold bind. rewrite Hx, IH. reflexivity.
      * exists (Raised e). intros t. unfold bind. rewrite Hx. reflexivity.
    + exists rl. exact IH.
Qed.

Lemma item0_traceless {A} (l : list A) :
  exists r, forall t, item0 l t = (t, r).
Proof. destruct l; eexists; intros t; reflexivity. Qed.

Lemma parse_traceless (output : bytes) :
  exists r, forall t, parse_installed_packages output t = (t, r).
Proof.
  unfold parse_installed_packages, decode_utf_8, bind, ret, raise.
  destruct (decode output) as [text|]; [| eexists; intros t; reflexivity].
  cbn beta iota.
  destruct (contains (u "apt") text).
  - destruct (comprehension_traceless (contains (u "/"))
                (fun line => item0 (split 47 line)) (splitlines text))
      as [r Hr]; [intros x; apply item0_traceless |].
    exists r. intros t. apply Hr.
  - destruct (contains (u "yum") text).
    + destruct (comprehension_traceless (contains (u "."))
                  (fun line => item0 (split_ws line)) (splitlines text))
        as [r Hr]; [intros x; apply item0_traceless |].
      exists r. intros t. apply Hr.
    + eexists. intros t. reflexivity.
Qed.

(** X1: when every engine call of the extraction succeeds, the extraction
    performs create, put_archive, start, exec_run, stop and remove, once
    each and in this order, and prints nothing, whatever the output is and
    whether or not its parsing then succeeds. *)
Theorem extraction_trace_when_probe_ok (client : Engine) (image : Image)
    (exit_code : Z) (output : bytes) (t : list event) :
  probe_ok client image exit_code output ->
  fst (get_installed_packages client image t) = t ++ probe_events image.
Proof.
  intros H. rewrite (extraction_after_probe _ _ _ _ _ H).
  destruct (parse_traceless output) as [r Hr]. rewrite Hr. reflexivity.
Qed.

Lemma extraction_trace_witness :
  probe_ok (engine_printing [xff]) demo_image 0%Z [xff]
  /\ fst (get_installed_packages (engine_printing [xff]) demo_image [])
     = probe_events demo_image.
Proof.
  split; [apply probe_ok_engine_printing |].
  apply (extraction_trace_when_probe_ok (engine_printing [xff]) demo_image
           0%Z [xff] []).
  apply probe_ok_engine_printing.
Defined.

(** X2: when [start] raises an exception of class Exception, the
    extraction prints the exception, the traceback and its failure line and
    raises SystemExit 1; the probe is not run and the container created
    before is neither stopped nor removed. *)
Theorem start_failure_exits_without_cleanup (client : Engine) (image : Image)
    (cls msg : str) (t : list event) :
  containers_create client (id image) = Returned tt ->
  (exists done, put_archive client = Returned done) ->
  start client = Raised (Exception cls msg) ->
  get_installed_packages client image t
  = (t ++ [ ContainersCreate (id image);
            PutArchive (u "/")
              [(u "list_installed_packages.sh", list_installed_packages_sh)];
            Start ]
       ++ failure_report (Exception cls msg),
     Raised (SystemExit 1)).
Proof.
  intros Hc [done Hp] Hs.
  unfold get_installed_packages, try_except, bind, print, print_exc,
    sys_exit, raise, call.
  rewrite Hc, Hp, Hs. unfold failure_report.
  repeat rewrite <- app_assoc. reflexivity.
Qed.

Lemma start_failure_witness :
  get_installed_packages
    (engine_of (Returned demo_image) (Returned tt) (Returned true)
       (Raised api_error) (Returned (0%Z, [])) (Returned tt) (Returned tt)
       (Returned (demo_image, [])))
    demo_image []
  = ([ ContainersCreate (id demo_image);
       PutArchive (u "/")
         [(u "list_installed_packages.sh", list_installed_packages_sh)];
       Start ]
     ++ failure_report api_error,
     Raised (SystemExit 1)).
Proof.
  apply (start_failure_exits_without_cleanup
           (engine_of (Returned demo_image) (Returned tt) (Returned true)
              (Raised api_error) (Returned (0%Z, [])) (Returned tt)
              (Returned tt) (Returned (demo_image, [])))
           demo_image (u "APIError") (u "409 Conflict") []).
  - reflexivity.
  - exists true. reflexivity.
  - reflexivity.
Defined.

(** X3: when [stop] raises an exception of class Exception after the probe
    has run, the output already captured is dropped: the extraction prints
    its failure report and raises SystemExit 1, and [remove] is never
    called. *)
Theorem stop_failure_drops_output (client : Engine) (image : Image)
    (exit_code : Z) (output : bytes) (cls msg : str) (t : list event) :
  containers_create client (id image) = Returned tt ->
  (exists done, put_archive client = Returned done) ->
  start client = Returned tt ->
  exec_run client (u "/list_installed_packages.sh")
  = Returned (exit_code, output) ->
  stop client = Raised (Exception cls msg) ->
  get_installed_packages client image t
  = (t ++ [ ContainersCreate (id image);
            PutArchive (u "/")
              [(u "list_installed_packages.sh", list_installed_packages_sh)];
            Start;
            ExecRun (u "/list_installed_packages.sh");
            Stop ]
       ++ failure_report (Exception cls msg),
     Raised (SystemExit 1)).
Proof.
  intros Hc [done Hp] Hs He Hst.
  unfold get_installed_packages, try_except, bind, print, print_exc,
    sys_exit, raise, call.
  rewrite Hc, Hp, Hs, He, Hst. unfold failure_report.
  repeat rewrite <- app_assoc. reflexivity.
Qed.

Lemma stop_failure_witness :
  snd (get_installed_packages
         (engine_of (Returned demo_image) (Returned tt) (Returned true)
            (Returned tt) (Returned (0%Z, apt_output)) (Raised api_error)
            (Returned tt) (Returned (demo_image, [])))
         demo_image [])
  = Raised (SystemExit 1).
Proof.
  rewrite (stop_failure_drops_output
             (engine_of (Returned demo_image) (Returned tt) (Returned true)
                (Returned tt) (Returned (0%Z, apt_output)) (Raised api_error)
                (Returned tt) (Returned (demo_image, [])))
             demo_image 0%Z apt_output (u "APIError") (u "409 Conflict") []
             eq_refl (ex_intro _ true eq_refl) eq_refl eq_refl eq_refl).
  reflexivity.
Defined.

(** X4: when [remove] raises an exception of class Exception, every
    earlier step having succeeded, the removal was attempted once and the
    extraction still fails: it prints its failure report and raises
    SystemExit 1 instead of returning the inventory of the captured
    output. *)
Theorem remove_failure_drops_output (client : Engine) (image : Image)
    (exit_code : Z) (output : bytes) (cls msg : str) (t : list event) :
  containers_create client (id image) = Returned tt ->
  (exists done, put_archive client = Returned done) ->
  start client = Returned tt ->
  exec_run client (u "/list_installed_packages.sh")
  = Returned (exit_code, output) ->
  stop client = Returned tt ->
  remove client = Raised (Exception cls msg) ->
  get_installed_packages client image t
  = (t ++ probe_events image ++ failure_report (Exception cls msg),
     Raised (SystemExit 1)).
Proof.
  intros Hc [done Hp] Hs He Hst Hr.
  unfold get_installed_packages, try_except, bind, print, print_exc,
    sys_exit, raise, call.
  rewrite Hc, Hp, Hs, He, Hst, Hr. unfold failure_report, probe_events.
  repeat rewrite <- app_assoc. reflexivity.
Qed.

Lemma remove_failure_witness :
  snd (get_installed_packages
         (engine_of (Returned demo_image) (Returned tt) (Returned true)
            (Returned tt) (Returned (0%Z, apt_output)) (Returned tt)
            (Raised api_error) (Returned (demo_image, [])))
         demo_image [])
  = Raised (SystemExit 1).
Proof.
  rewrite (remove_failure_drops_output
             (engine_of (Returned demo_image) (Returned tt) (Returned true)
                (Returned tt) (Returned (0%Z, apt_output)) (Returned tt)
                (Raised api_error) (Returned (demo_image, [])))
             demo_image 0%Z apt_output (u "APIError") (u "409 Conflict") []
             eq_refl (ex_intro _ true eq_refl) eq_refl eq_refl eq_refl
             eq_refl).
  reflexivity.
Defined.

(** X5: an exception raised by [containers.create] or by [put_archive]
    is outside the try block: it leaves the extraction as it is, nothing
    is printed and no SystemExit is raised; after a failed [put_archive]
    the container just created is not removed. *)
Theorem setup_failure_propagates (client : Engine) (image : Image)
    (e : exn) (t : list event) :
  (containers_create client (id image) = Raised e ->
   get_installed_packages client image t
   = (t ++ [ContainersCreate (id image)], Raised e))
  /\ (containers_create client (id image) = Returned tt ->
      put_archive client = Raised e ->
      get_installed_packages client image t
      = (t ++ [ ContainersCreate (id image);
                PutArchive (u "/")
                  [(u "list_installed_packages.sh",
                    list_installed_packages_sh)] ],
         Raised e)).
Proof.
  split.
  - intros Hc. unfold get_installed_packages, bind, call. rewrite Hc.
    reflexivity.
  - intros Hc Hp. unfold get_installed_packages, bind, call.
    rewrite Hc, Hp. rewrite <- app_assoc. reflexivity.
Qed.

Lemma setup_failure_witness :
  get_installed_packages
    (engine_of (Returned demo_image) (Returned tt) (Raised api_error)
       (Returned tt) (Returned (0%Z, [])) (Returned tt) (Returned tt)
       (Returned (demo_image, [])))
    demo_image []
  = ([ ContainersCreate (id demo_image);
       PutArchive (u "/")
         [(u "list_installed_packages.sh", list_installed_packages_sh)] ],
     Raised api_error).
Proof.
  apply (proj2 (setup_failure_propagates
                  (engine_of (Returned demo_image) (Returned tt)
                     (Raised api_error) (Returned tt) (Returned (0%Z, []))
                     (Returned tt) (Returned tt) (Returned (demo_image, [])))
                  demo_image api_error [])).
  - reflexivity.
  - reflexivity.
Defined.

(** X6: when every engine call succeeds but the output is not valid
    UTF-8, the extraction raises UnicodeDecodeError, after the container
    was removed; the error is not turned into SystemExit and nothing is
    printed. *)
Theorem undecodable_output_raises (client : Engine) (image : Image)
    (exit_code : Z) (output : bytes) (t : list event) :
  probe_ok client image exit_code output ->
  decode output = None ->
  exists msg,
    get_installed_packages client image t
    = (t ++ probe_events image,
       Raised (Exception (u "UnicodeDecodeError") msg)).
Proof.
  intros Hp Hd. rewrite (extraction_after_probe _ _ _ _ _ Hp).
  unfold parse_installed_packages, decode_utf_8, bind, raise.
  rewrite Hd. eexists. reflexivity.
Qed.

Lemma undecodable_output_witness :
  decode [xc3; x28] = None
  /\ exists msg,
       get_installed_packages (engine_printing [xc3; x28]) demo_image []
       = (probe_events demo_image,
          Raised (Exception (u "UnicodeDecodeError") msg)).
Proof.
  split; [reflexivity |].
  apply (undecodable_output_raises (engine_printing [xc3; x28]) demo_image
           0%Z [xc3; x28] []).
  - apply probe_ok_engine_printing.
  - reflexivity.
Defined.

(** X7: the probe's exit status is ignored.  Two extractions whose engine
    calls succeed with the same output give the same result, whatever the
    two exit statuses are. *)
Theorem exit_code_is_ignored (client1 client2 : Engine) (image : Image)
    (exit_code1 exit_code2 : Z) (output : bytes) (t : list event) :
  probe_ok client1 image exit_code1 output ->
  probe_ok client2 image exit_code2 output ->
  get_installed_packages client1 image t
  = get_installed_packages client2 image t.
Proof.
  intros H1 H2.
  rewrite (extraction_after_probe _ _ _ _ _ H1).
  rewrite (extraction_after_probe _ _ _ _ _ H2). reflexivity.
Qed.

Lemma exit_code_witness :
  get_installed_packages
    (engine_of (Returned demo_image) (Returned tt) (Returned true)
       (Returned tt) (Returned (127%Z, apt_output)) (Returned tt)
       (Returned tt) (Returned (demo_image, [])))
    demo_image []
  = get_installed_packages (engine_printing apt_output) demo_image [].
Proof.
  apply (exit_code_is_ignored _ _ demo_image 127%Z 0%Z apt_output []).
  - unfold probe_ok. simpl. repeat split. exists true. reflexivity.
  - apply probe_ok_engine_printing.
Defined.

(* ================================================================= *)
(** ** More on the extraction: what an inventory holds *)

Lemma contains_char_In (c : N) (s : str) :
  contains [c] s = true <-> In c s.
Proof.
  induction s as [|x s IH].
  - split; [discriminate | contradiction].
  - split.
    + intros H. apply contains_char_inv in H. destruct H as [-> | H].
      * left. reflexivity.
      * right. apply IH. exact H.
    + intros [-> | H]; simpl.
      * rewrite N.eqb_refl. reflexivity.
      * apply IH in H. rewrite H. apply orb_true_r.
Qed.

Lemma before_first_split (sep : N) (s : str) :
  contains [sep] s = true ->
  exists rest, s = before_first sep s ++ sep :: rest.
Proof.
  induction s as [|c s IH]; intros H.
  - discriminate H.
  - simpl. destruct (c =? sep) eqn:E.
    + apply N.eqb_eq in E. subst c. exists s. reflexivity.
    + apply contains_char_inv in H. destruct H as [-> | H].
      * rewrite N.eqb_refl in E. discriminate E.
      * destruct (IH H) as [rest Hr]. exists rest. simpl. congruence.
Qed.

Lemma before_first_free (sep : N) (s : str) :
  contains [sep] (before_first sep s) = false.
Proof.
  destruct (contains [sep] (before_first sep s)) eqn:E; [| reflexivity].
  exfalso. apply contains_char_In in E.
  induction s as [|c s IH]; simpl in E.
  - contradiction.
  - destruct (c =? sep) eqn:Ec.
    + contradiction.
    + destruct E as [-> | E].
      * rewrite N.eqb_refl in Ec. discriminate Ec.
      * auto.
Qed.

Lemma before_first_forallb (P : N -> bool) (sep : N) (s : str) :
  forallb P s = true -> forallb P (before_first sep s) = true.
Proof.
  induction s as [|c s IH]; simpl; intros H.
  - reflexivity.
  - apply andb_true_iff in H. destruct H as [Hc Hs].
    destruct (c =? sep); simpl.
    + reflexivity.
    + rewrite Hc. auto.
Qed.

Lemma lstrip_forallb (P : N -> bool) (s : str) :
  forallb P s = true -> forallb P (lstrip s) = true.
Proof.
  induction s as [|c s IH]; simpl; intros H.
  - reflexivity.
  - apply andb_true_iff in H. destruct H as [Hc Hs].
    destruct (isspace c); simpl.
    + auto.
    + rewrite Hc. exact Hs.
Qed.

Lemma until_space_forallb (P : N -> bool) (s : str) :
  forallb P s = true -> forallb P (until_space s) = true.
Proof.
  induction s as [|c s IH]; simpl; intros H.
  - reflexivity.
  - apply andb_true_iff in H. destruct H as [Hc Hs].
    destruct (isspace c); simpl.
    + reflexivity.
    + rewrite Hc. auto.
Qed.

Lemma until_space_free (s : str) :
  forallb (fun c => negb (isspace c)) (until_space s) = true.
Proof.
  induction s as [|c s IH]; simpl.
  - reflexivity.
  - destruct (isspace c) eqn:E; simpl.
    + reflexivity.
    + rewrite E. exact IH.
Qed.

Lemma lstrip_head (s : str) :
  lstrip s = [] \/ exists c r, lstrip s = c :: r /\ isspace c = false.
Proof.
  induction s as [|c s IH]; simpl.
  - left. reflexivity.
  - destruct (isspace c) eqn:E.
    + exact IH.
    + right. exists c, s. split; [reflexivity | exact E].
Qed.

Lemma first_token_is_word (s : str) :
  lstrip s <> [] -> is_word (first_token s) = true.
Proof.
  intros H. unfold first_token.
  destruct (lstrip_head s) as [E | (c & r & E & Hc)]; [contradiction |].
  rewrite E. simpl. rewrite Hc. simpl. rewrite Hc. simpl.
  apply until_space_free.
Qed.

Lemma splitlines_bounded (n : nat) :
  forall s, (List.length s <= n)%nat ->
    (forall line, In line (splitlines s) -> no_linebreak line = true)
    /\ (forall line c, In line (splitlines s) -> In c line -> In c s).
Proof.
  induction n as [|n IH]; intros s Hn.
  - destruct s; [| simpl in Hn; lia]. split; intros; contradiction.
  - destruct s as [|c s]; [split; intros; contradiction |].
    simpl in Hn. assert (Hs : (List.length s <= n)%nat) by lia.
    destruct (IH s Hs) as [IH1 IH2].
    simpl. destruct (is_linebreak c) eqn:Eb.
    + destruct s as [|d s'].
      * split.
        -- intros line [<- | []]. reflexivity.
        -- intros line x [<- | []] [].
      * assert (Hs' : (List.length s' <= n)%nat) by (simpl in Hs; lia).
        destruct (IH s' Hs') as [IH1' IH2'].
        destruct ((c =? CR) && (d =? LF)).
        -- split.
           ++ intros line [<- | H]; [reflexivity | auto].
           ++ intros line x [<- | H] Hx; [contradiction |].
              right. right. eauto.
        -- split.
           ++ intros line [<- | H]; [reflexivity | auto].
           ++ intros line x [<- | H] Hx; [contradiction |].
              right. eauto.
    + destruct (splitlines s) as [|l ls].
      * split.
        -- intros line [<- | []]. unfold no_linebreak. simpl.
           rewrite Eb. reflexivity.
        -- intros line x [<- | []] [<- | []]. left. reflexivity.
      * split.
        -- intros line [<- | H].
           ++ unfold no_linebreak. simpl. rewrite Eb. simpl.
              apply (IH1 l). left. reflexivity.
           ++ apply IH1. right. exact H.
        -- intros line x [<- | H] Hx.
           ++ destruct Hx as [<- | Hx]; [left; reflexivity |].
              right. apply (IH2 l x); [left; reflexivity | exact Hx].
           ++ right. apply (IH2 line x); [right; exact H | exact Hx].
Qed.

Lemma splitlines_no_linebreak (s line : str) :
  In line (splitlines s) -> no_linebreak line = true.
Proof. apply (splitlines_bounded (List.length s) s (le_n _)). Qed.

Lemma splitlines_chars (s line : str) (c : N) :
  In line (splitlines s) -> In c line -> In c s.
Proof. apply (splitlines_bounded (List.length s) s (le_n _)). Qed.

Lemma filter_none {A} (f : A -> bool) (l : list A) :
  (forall x, In x l -> f x = false) -> filter f l = [].
Proof.
  induction l as [|x l IH]; intros H; simpl.
  - reflexivity.
  - rewrite (H x) by (left; reflexivity). apply IH.
    intros y Hy. apply H. right. exact Hy.
Qed.

(** X8: in the apt branch every inventory entry is free of slashes and is
    what stands before a slash in some line of the output, and the
    inventory has one entry for each line that contains a slash:
    duplicates are kept. *)
Theorem apt_entries_precede_a_slash (client : Engine) (image : Image)
    (exit_code : Z) (output : bytes) (text : str) (t : list event) :
  probe_ok client image exit_code output ->
  decode output = Some text ->
  contains (u "apt") text = true ->
  exists inventory,
    snd (get_installed_packages client image t) = Returned inventory
    /\ List.length inventory
       = List.length (filter (contains (u "/")) (splitlines text))
    /\ forall entry, In entry inventory ->
         contains (u "/") entry = false
         /\ exists rest, In (entry ++ 47 :: rest) (splitlines text).
Proof.
  intros Hp Hd Ha. eexists. split; [| split].
  - rewrite (extraction_after_probe _ _ _ _ _ Hp).
    rewrite (parse_apt _ _ _ Hd Ha). reflexivity.
  - apply length_map.
  - intros entry He. apply in_map_iff in He.
    destruct He as (line & <- & Hl). apply filter_In in Hl.
    destruct Hl as [Hl Hs]. split.
    + apply (before_first_free 47).
    + destruct (before_first_split 47 line Hs) as [rest Hr].
      exists rest. rewrite <- Hr. exact Hl.
Qed.

Lemma apt_entries_witness :
  exists inventory,
    snd (get_installed_packages (engine_printing apt_output) demo_image [])
    = Returned inventory
    /\ List.length inventory = 1%nat.
Proof.
  destruct (apt_entries_precede_a_slash (engine_printing apt_output)
              demo_image 0%Z apt_output
              (u "WARNING: apt does not have a stable CLI interface." ++ [LF]
               ++ u "curl/stable 7.68 amd64" ++ [LF]
               ++ u "not-a-package-line" ++ [LF]) []
              (probe_ok_engine_printing apt_output) eq_refl eq_refl)
    as (inventory & E & L & _).
  exists inventory. split; [exact E | exact L].
Defined.

(** X9: in the yum branch every inventory entry is a word: it is not
    empty and holds no whitespace. *)
Theorem yum_entries_are_words (client : Engine) (image : Image)
    (exit_code : Z) (output : bytes) (text : str) (t : list event) :
  probe_ok client image exit_code output ->
  decode output = Some text ->
  contains (u "apt") text = false ->
  contains (u "yum") text = true ->
  exists inventory,
    snd (get_installed_packages client image t) = Returned inventory
    /\ forall entry, In entry inventory -> is_word entry = true.
Proof.
  intros Hp Hd Ha Hy. eexists. split.
  - rewrite (extraction_after_probe _ _ _ _ _ Hp).
    rewrite (parse_yum _ _ _ Hd Ha Hy). reflexivity.
  - intros entry He. apply in_map_iff in He.
    destruct He as (line & <- & Hl). apply filter_In in Hl.
    apply first_token_is_word. apply contains_dot_not_blank. apply Hl.
Qed.

Lemma yum_entries_witness :
  exists inventory,
    snd (get_installed_packages (engine_printing yum_output) demo_image [])
    = Returned inventory
    /\ forall entry, In entry inventory -> is_word entry = true.
Proof.
  apply (yum_entries_are_words (engine_printing yum_output) demo_image 0%Z
           yum_output
           (u "Loaded plugins: yum" ++ [LF]
            ++ u "bash.x86_64 5.0 installed" ++ [LF]) []).
  - apply probe_ok_engine_printing.
  - reflexivity.
  - reflexivity.
  - reflexivity.
Defined.

(** X10: whenever the engine calls succeed and the output is valid UTF-8,
    the extraction returns an inventory, whichever markers the output has:
    neither rule can raise.  No entry of it holds a line-break
    character. *)
Theorem decodable_output_gives_inventory (client : Engine) (image : Image)
    (exit_code : Z) (output : bytes) (text : str) (t : list event) :
  probe_ok client image exit_code output ->
  decode output = Some text ->
  exists inventory,
    get_installed_packages client image t
    = (t ++ probe_events image, Returned inventory)
    /\ forall entry, In entry inventory -> no_linebreak entry = true.
Proof.
  intros Hp Hd. rewrite (extraction_after_probe _ _ _ _ _ Hp).
  destruct (contains (u "apt") text) eqn:Ha;
    [| destruct (contains (u "yum") text) eqn:Hy].
  - eexists. split; [apply (parse_apt _ _ _ Hd Ha) |].
    intros entry He. apply in_map_iff in He.
    destruct He as (line & <- & Hl). apply filter_In in Hl.
    apply before_first_forallb.
    apply (splitlines_no_linebreak text). apply Hl.
  - eexists. split; [apply (parse_yum _ _ _ Hd Ha Hy) |].
    intros entry He. apply in_map_iff in He.
    destruct He as (line & <- & Hl). apply filter_In in Hl.
    apply until_space_forallb. apply lstrip_forallb.
    apply (splitlines_no_linebreak text). apply Hl.
  - eexists. split; [apply (parse_unmarked _ _ _ Hd Ha Hy) |].
    intros entry [].
Qed.

Lemma decodable_output_witness :
  exists inventory,
    get_installed_packages (engine_printing slash_output) demo_image []
    = (probe_events demo_image, Returned inventory)
    /\ forall entry, In entry inventory -> no_linebreak entry = true.
Proof.
  apply (decodable_output_gives_inventory (engine_printing slash_output)
           demo_image 0%Z slash_output (u "apt" ++ [LF] ++ u "/usr/bin") []).
  - apply probe_ok_engine_printing.
  - reflexivity.
Defined.

(** X11: the apt marker wins.  Output that contains apt and no slash gives
    the empty inventory, even when it also contains yum and lines with a
    dot, which the yum rule would have listed. *)
Theorem apt_marker_without_slash_gives_nothing (client : Engine)
    (image : Image) (exit_code : Z) (output : bytes) (text : str)
    (t : list event) :
  probe_ok client image exit_code output ->
  decode output = Some text ->
  contains (u "apt") text = true ->
  contains (u "/") text = false ->
  snd (get_installed_packages client image t) = Returned [].
Proof.
  intros Hp Hd Ha Hs.
  rewrite (extraction_after_probe _ _ _ _ _ Hp).
  rewrite (parse_apt _ _ _ Hd Ha). simpl.
  rewrite filter_none; [reflexivity |].
  intros line Hl. destruct (contains (u "/") line) eqn:E; [| reflexivity].
  apply (contains_char_In 47) in E.
  apply (splitlines_chars text line 47 Hl) in E.
  apply (contains_char_In 47) in E.
  change (u "/") with [47] in Hs. congruence.
Qed.

Lemma apt_marker_witness :
  contains (u "yum") (u "captcha.x86_64 1.0 @yum") = true
  /\ snd (get_installed_packages
            (engine_printing (b "captcha.x86_64 1.0 @yum")) demo_image [])
     = Returned [].
Proof.
  split; [reflexivity |].
  apply (apt_marker_without_slash_gives_nothing
           (engine_printing (b "captcha.x86_64 1.0 @yum")) demo_image 0%Z
           (b "captcha.x86_64 1.0 @yum") (u "captcha.x86_64 1.0 @yum") []).
  - apply probe_ok_engine_printing.
  - reflexivity.
  - reflexivity.
  - reflexivity.
Defined.

(* ================================================================= *)
(** ** More on the recipe: its words *)

Lemma split_ws_nonblank (d : N) (s : str) :
  isspace d = false -> split_ws (d :: s) <> [].
Proof.
  intros Hd. simpl. rewrite Hd. destruct s as [|x s]; [discriminate |].
  destruct (isspace x); [discriminate |].
  destruct (split_ws (x :: s)); discriminate.
Qed.

Lemma split_ws_app_space (c : N) (rest : str) :
  isspace c = true ->
  forall s, split_ws (s ++ c :: rest) = split_ws s ++ split_ws rest.
Proof.
  intros Hc. induction s as [|x s IH].
  - simpl. rewrite Hc. reflexivity.
  - change ((x :: s) ++ c :: rest) with (x :: (s ++ c :: rest)).
    destruct (isspace x) eqn:Hx.
    + simpl. rewrite Hx. exact IH.
    + destruct s as [|d s].
      * simpl. rewrite Hx, Hc. reflexivity.
      * change ((d :: s) ++ c :: rest) with (d :: (s ++ c :: rest)) in *.
        destruct (isspace d) eqn:Hd.
        -- simpl in IH. rewrite Hd in IH.
           simpl. rewrite Hx, Hd. rewrite IH. reflexivity.
        -- assert (E1 : split_ws (x :: d :: s ++ c :: rest)
                        = match split_ws (d :: s ++ c :: rest) with
                          | [] => [[x]]
                          | w :: ws => (x :: w) :: ws
                          end).
           { simpl. rewrite Hx, Hd. reflexivity. }
           assert (E2 : split_ws (x :: d :: s)
                        = match split_ws (d :: s) with
                          | [] => [[x]]
                          | w :: ws => (x :: w) :: ws
                          end).
           { simpl. rewrite Hx, Hd. reflexivity. }
           rewrite E1, E2, IH.
           destruct (split_ws (d :: s)) as [|w ws] eqn:Ew.
           ++ exfalso. apply (split_ws_nonblank d s Hd). exact Ew.
           ++ reflexivity.
Qed.

Lemma split_ws_word (w : str) : is_word w = true -> split_ws w = [w].
Proof.
  induction w as [|x w IH]; intros H.
  - discriminate H.
  - simpl in H. apply andb_true_iff in H. destruct H as [Hx Hw].
    apply negb_true_iff in Hx. simpl. rewrite Hx.
    destruct w as [|d w]; [reflexivity |].
    assert (Hd : isspace d = false).
    { simpl in Hw. apply andb_true_iff in Hw. destruct Hw as [Hd _].
      apply negb_true_iff. exact Hd. }
    rewrite Hd. rewrite IH; [reflexivity | exact Hw].
Qed.

Lemma split_ws_word_then (w : str) (c : N) (rest : str) :
  is_word w = true -> isspace c = true ->
  split_ws (w ++ c :: rest) = w :: split_ws rest.
Proof.
  intros Hw Hc. rewrite (split_ws_app_space c rest Hc).
  rewrite (split_ws_word w Hw). reflexivity.
Qed.

Lemma split_ws_join_then (c : N) (rest : str) (ps : list str) :
  forallb is_word ps = true -> isspace c = true ->
  split_ws (join (u " ") ps ++ c :: rest) = ps ++ split_ws rest.
Proof.
  intros Hps Hc. induction ps as [|x ps IH].
  - simpl. rewrite Hc. reflexivity.
  - simpl in Hps. apply andb_true_iff in Hps. destruct Hps as [Hx Hps].
    destruct ps as [|y ps].
    + simpl. apply split_ws_word_then; assumption.
    + change (join (u " ") (x :: y :: ps))
        with (x ++ 32 :: join (u " ") (y :: ps)).
      rewrite <- app_assoc.
      change ((32 :: join (u " ") (y :: ps)) ++ c :: rest)
        with (32 :: (join (u " ") (y :: ps) ++ c :: rest)).
      rewrite (split_ws_word_then x 32 _ Hx eq_refl).
      rewrite (IH Hps). reflexivity.
Qed.

Lemma split_ws_join (ps : list str) :
  forallb is_word ps = true -> split_ws (join (u " ") ps) = ps.
Proof.
  intros Hps.
  pose proof (split_ws_app_space 32 [] eq_refl (join (u " ") ps)) as E.
  rewrite (split_ws_join_then 32 [] ps Hps eq_refl) in E.
  simpl in E. rewrite !app_nil_r in E. symmetry. exact E.
Qed.

(** X12: when the base image is one word and every package name is one
    word, the words of the generated recipe are FROM, the base image, the
    words of the update and install commands, the package names as given
    and in order, the words of the cleanup command, and the words of the
    comments: no package name is merged with or split from another. *)
Theorem recipe_words (base_image : str) (packages : list str)
    (t : list event) :
  is_word base_image = true ->
  forallb is_word packages = true ->
  exists dockerfile,
    snd (generate_dockerfile base_image packages t) = Returned dockerfile
    /\ split_ws dockerfile
       = [ u "FROM"; base_image;
           u "RUN"; u "apt-get"; u "update"; u "&&"; [BACKSLASH];
           u "apt-get"; u "install"; u "-y"; [BACKSLASH] ]
         ++ packages
         ++ [ u "&&"; [BACKSLASH]; u "rm"; u "-rf";
              u "/var/lib/apt/lists/*" ]
         ++ List.concat (map split_ws trailing_comments).
Proof.
  intros Hb Hps. rewrite generate_dockerfile_split. eexists.
  split; [reflexivity |].
  assert (E : exists tail,
             ([LF] ++ u "    FROM ") ++ base_image
             ++ LF :: unlines
                        (map indent
                           (tl (template_lines base_image packages)
                            ++ trailing_comments))
             ++ u "    "
             = (LF :: u "    FROM")
               ++ 32 :: (base_image
                         ++ LF :: ((LF :: u "    RUN apt-get update && "
                                    ++ [BACKSLASH; LF]
                                    ++ u "        apt-get install -y "
                                    ++ [BACKSLASH; LF] ++ u "       ")
                                   ++ 32 :: (join (u " ") packages
                                             ++ 32 :: tail)))
             /\ split_ws tail
                = [ u "&&"; [BACKSLASH]; u "rm"; u "-rf";
                    u "/var/lib/apt/lists/*" ]
                  ++ List.concat (map split_ws trailing_comments)).
  { eexists. split.
    - unfold template_lines, unlines. cbn.
      repeat (rewrite <- !app_assoc; cbn). reflexivity.
    - vm_compute. reflexivity. }
  destruct E as (tail & E1 & E2). rewrite E1.
  rewrite (split_ws_app_space 32 _ eq_refl).
  rewrite (split_ws_word_then base_image LF _ Hb eq_refl).
  rewrite (split_ws_app_space 32 _ eq_refl).
  rewrite (split_ws_join_then 32 tail packages Hps eq_refl).
  rewrite E2. vm_compute split_ws. reflexivity.
Qed.

Lemma recipe_words_witness :
  exists dockerfile,
    snd (generate_dockerfile (u "debian:12") [u "curl"; u "bash.x86_64"] [])
    = Returned dockerfile
    /\ firstn 13 (split_ws dockerfile)
       = [ u "FROM"; u "debian:12";
           u "RUN"; u "apt-get"; u "update"; u "&&"; [BACKSLASH];
           u "apt-get"; u "install"; u "-y"; [BACKSLASH];
           u "curl"; u "bash.x86_64" ].
Proof.
  destruct (recipe_words (u "debian:12") [u "curl"; u "bash.x86_64"] []
              eq_refl eq_refl) as (dockerfile & E & W).
  exists dockerfile. split; [exact E |]. rewrite W. reflexivity.
Defined.

(** X13: a yum inventory passes through the recipe's package line
    unchanged: joining it with spaces, as the generator does, and reading
    the words back gives the inventory again. *)
Theorem yum_inventory_survives_joining (client : Engine) (image : Image)
    (exit_code : Z) (output : bytes) (text : str) (t : list event) :
  probe_ok client image exit_code output ->
  decode output = Some text ->
  contains (u "apt") text = false ->
  contains (u "yum") text = true ->
  exists inventory,
    snd (get_installed_packages client image t) = Returned inventory
    /\ split_ws (join (u " ") inventory) = inventory.
Proof.
  intros Hp Hd Ha Hy. eexists. split.
  - rewrite (extraction_after_probe _ _ _ _ _ Hp).
    rewrite (parse_yum _ _ _ Hd Ha Hy). reflexivity.
  - apply split_ws_join. apply forallb_forall.
    intros entry He. apply in_map_iff in He.
    destruct He as (line & <- & Hl). apply filter_In in Hl.
    apply first_token_is_word. apply contains_dot_not_blank. apply Hl.
Qed.

Lemma yum_joining_witness :
  exists inventory,
    snd (get_installed_packages (engine_printing yum_output) demo_image [])
    = Returned inventory
    /\ split_ws (join (u " ") inventory) = inventory.
Proof.
  apply (yum_inventory_survives_joining (engine_printing yum_output)
           demo_image 0%Z yum_output
           (u "Loaded plugins: yum" ++ [LF]
            ++ u "bash.x86_64 5.0 installed" ++ [LF]) []).
  - apply probe_ok_engine_printing.
  - reflexivity.
  - reflexivity.
  - reflexivity.
Defined.

(* ================================================================= *)
(** ** More on the builder *)

Lemma log_lines_printed (logs : list LogRecord) (t : list event) :
  for_each logs print_stream t = (t ++ log_lines logs, Returned tt).
Proof. apply for_each_print_stream. Qed.

Lemma builds_app (t1 t2 : list event) :
  builds (t1 ++ t2) = (builds t1 + builds t2)%nat.
Proof. unfold builds. rewrite filter_app, length_app. reflexivity. Qed.

Lemma builds_log_lines (logs : list LogRecord) : builds (log_lines logs) = 0%nat.
Proof. induction logs as [|log logs IH]; [reflexivity | exact IH]. Qed.

(** X14: when the engine's build succeeds, the builder prints its banner,
    calls the build once, prints the stream text of every log record in
    the engine's order, stripped, and returns the engine's image. *)
Theorem build_success_returns_image (client : Engine)
    (dockerfile tag : str) (image : Image) (build_logs : list LogRecord)
    (t : list event) :
  images_build client [(u "Dockerfile", dockerfile)] tag
  = Returned (image, build_logs) ->
  build_container_image client dockerfile tag t
  = (t ++ [ Stdout (u "Building new container image: " ++ tag);
            ImagesBuild [(u "Dockerfile", dockerfile)] tag true true ]
       ++ log_lines build_logs,
     Returned image).
Proof.
  intros Hb.
  unfold build_container_image, try_except, bind, print, call, ret.
  rewrite Hb. rewrite log_lines_printed.
  repeat rewrite <- app_assoc. reflexivity.
Qed.

Lemma build_success_witness :
  build_container_image
    (engine_of (Returned demo_image) (Returned tt) (Returned true)
       (Returned tt) (Returned (0%Z, [])) (Returned tt) (Returned tt)
       (Returned (demo_image, demo_logs)))
    (u "FROM x") (u "app:2") []
  = ([ Stdout (u "Building new container image: app:2");
       ImagesBuild [(u "Dockerfile", u "FROM x")] (u "app:2") true true;
       Stdout (u "Step 1/2 : FROM debian:12");
       Stdout [];
       Stdout (u "---> 77aa") ],
     Returned demo_image).
Proof.
  apply (build_success_returns_image
           (engine_of (Returned demo_image) (Returned tt) (Returned true)
              (Returned tt) (Returned (0%Z, [])) (Returned tt) (Returned tt)
              (Returned (demo_image, demo_logs)))
           (u "FROM x") (u "app:2") demo_image demo_logs [] eq_refl).
Defined.

(** X15: when the build raises an exception of class Exception other than
    BuildError, the builder prints one line with the exception's text and
    raises SystemExit 1; no log line is printed. *)
Theorem build_unexpected_error_exits (client : Engine)
    (dockerfile tag cls msg : str) (t : list event) :
  images_build client [(u "Dockerfile", dockerfile)] tag
  = Raised (Exception cls msg) ->
  build_container_image client dockerfile tag t
  = (t ++ [ Stdout (u "Building new container image: " ++ tag);
            ImagesBuild [(u "Dockerfile", dockerfile)] tag true true;
            Stdout (u "An unexpected error occurred while building the new image: "
                    ++ msg) ],
     Raised (SystemExit 1)).
Proof.
  intros Hb.
  unfold build_container_image, try_except, bind, print, sys_exit, raise,
    call.
  rewrite Hb. cbn [exn_str]. repeat rewrite <- app_assoc. reflexivity.
Qed.

Lemma build_unexpected_error_witness :
  snd (build_container_image
         (engine_of (Returned demo_image) (Returned tt) (Returned true)
            (Returned tt) (Returned (0%Z, [])) (Returned tt) (Returned tt)
            (Raised api_error))
         (u "FROM x") (u "app:2") [])
  = Raised (SystemExit 1).
Proof.
  rewrite (build_unexpected_error_exits
             (engine_of (Returned demo_image) (Returned tt) (Returned true)
                (Returned tt) (Returned (0%Z, [])) (Returned tt)
                (Returned tt) (Raised api_error))
             (u "FROM x") (u "app:2") (u "APIError") (u "409 Conflict") []
             eq_refl).
  reflexivity.
Defined.

(** X16: on every path, whatever the engine answers, the builder calls
    the build exactly once, with a context that holds the recipe as its
    one file Dockerfile, with the given tag and with rm and pull set; it
    never builds a second time. *)
Theorem build_called_exactly_once (client : Engine) (dockerfile tag : str)
    (t : list event) :
  exists rest,
    fst (build_container_image client dockerfile tag t)
    = t ++ [ Stdout (u "Building new container image: " ++ tag);
             ImagesBuild [(u "Dockerfile", dockerfile)] tag true true ]
        ++ rest
    /\ builds rest = 0%nat.
Proof.
  unfold build_container_image, try_except, bind, print, sys_exit, raise,
    call, ret.
  destruct (images_build client [(u "Dockerfile", dockerfile)] tag)
    as [[image logs] | [msg log | cls msg | code]].
  - rewrite log_lines_printed. exists (log_lines logs). split.
    + cbn [fst]. repeat rewrite <- app_assoc. reflexivity.
    + apply builds_log_lines.
  - rewrite log_lines_printed.
    exists (Stdout (u "Error building the new image: " ++ msg)
            :: log_lines log).
    split.
    + cbn [fst exn_str]. repeat rewrite <- app_assoc. reflexivity.
    + apply builds_log_lines.
  - eexists. split.
    + cbn [fst exn_str]. repeat rewrite <- app_assoc. reflexivity.
    + reflexivity.
  - exists []. split.
    + cbn [fst]. repeat rewrite <- app_assoc. reflexivity.
    + reflexivity.
Qed.

Lemma lstrip_idempotent (s : str) : lstrip (lstrip s) = lstrip s.
Proof.
  destruct (lstrip_head s) as [E | (c & r & E & Hc)]; rewrite E.
  - reflexivity.
  - apply lstrip_not_space. exact Hc.
Qed.

Lemma lstrip_suffix (s : str) :
  exists ws, s = ws ++ lstrip s /\ forallb isspace ws = true.
Proof.
  induction s as [|c s (ws & E & Hws)]; simpl.
  - exists []. split; reflexivity.
  - destruct (isspace c) eqn:Hc.
    + exists (c :: ws). split.
      * simpl. congruence.
      * simpl. rewrite Hc. exact Hws.
    + exists []. split; reflexivity.
Qed.

Lemma rstrip_prefix (s : str) :
  exists ws, s = rstrip s ++ ws /\ forallb isspace ws = true.
Proof.
  destruct (lstrip_suffix (rev s)) as (ws & E & Hws).
  exists (rev ws). split.
  - unfold rstrip. rewrite <- rev_app_distr, <- E. symmetry.
    apply rev_involutive.
  - apply forallb_forall. intros x Hx. apply in_rev in Hx.
    revert x Hx. apply forallb_forall. exact Hws.
Qed.

Lemma strip_is_stripped (s : str) :
  lstrip (strip s) = strip s /\ rstrip (strip s) = strip s.
Proof.
  unfold strip. split.
  - destruct (lstrip_head s) as [E | (c & r & E & Hc)]; rewrite E.
    + reflexivity.
    + destruct (rstrip_prefix (c :: r)) as (ws & Ew & Hws).
      destruct (rstrip (c :: r)) as [|c' r'] eqn:Er.
      * reflexivity.
      * simpl in Ew. injection Ew as Ec _. subst c'.
        apply lstrip_not_space. exact Hc.
  - unfold rstrip. rewrite rev_involutive, lstrip_idempotent. reflexivity.
Qed.

Lemma strip_keeps_the_middle (s : str) :
  exists leading trailing,
    s = leading ++ strip s ++ trailing
    /\ forallb isspace leading = true
    /\ forallb isspace trailing = true.
Proof.
  destruct (lstrip_suffix s) as (leading & E1 & H1).
  destruct (rstrip_prefix (lstrip s)) as (trailing & E2 & H2).
  exists leading, trailing. split; [| split; assumption].
  unfold strip. rewrite <- E2. exact E1.
Qed.

(** X17: for every log record the builder makes one print call.  Its
    text neither begins nor ends with whitespace.  It is empty when the
    record has no key stream; otherwise it is the stream text less the
    whitespace before and after it and nothing else: whitespace inside
    the text, line feeds included, is printed as it is, so that one
    record can give several console lines. *)
Theorem print_stream_of_record (log : LogRecord) (t : list event) :
  exists text,
    print_stream log t = (t ++ [Stdout text], Returned tt)
    /\ lstrip text = text /\ rstrip text = text
    /\ ((forall key value, In (key, value) log -> key <> u "stream") ->
        text = [])
    /\ (forall before value rest,
          log = before ++ (u "stream", value) :: rest ->
          (forall key other, In (key, other) before -> key <> u "stream") ->
          text = strip value
          /\ exists leading trailing,
               value = leading ++ text ++ trailing
               /\ forallb isspace leading = true
               /\ forallb isspace trailing = true).
Proof.
  exists (strip (dict_get log (u "stream") [])).
  split; [reflexivity |].
  split; [apply strip_is_stripped |].
  split; [apply strip_is_stripped |].
  assert (Skip : forall before rest,
            (forall key other, In (key, other) before -> key <> u "stream") ->
            dict_get (before ++ rest) (u "stream") []
            = dict_get rest (u "stream") []).
  { induction before as [|[k v] before IH]; intros rest H; [reflexivity |].
    simpl. destruct (list_eq_dec N.eq_dec k (u "stream")) as [Ek | Ek].
    - exfalso. apply (H k v); [left; reflexivity | exact Ek].
    - apply IH. intros key other Hin. apply (H key other).
      right. exact Hin. }
  split.
  - intros H. rewrite <- (app_nil_r log). rewrite (Skip log [] H).
    reflexivity.
  - intros before value rest -> H. rewrite (Skip before _ H). simpl.
    destruct (list_eq_dec N.eq_dec (u "stream") (u "stream")) as [_ | Ne];
      [| exfalso; apply Ne; reflexivity].
    split; [reflexivity | apply strip_keeps_the_middle].
Qed.

Lemma print_stream_witness :
  print_stream [(u "aux", u "sha256:77aa")] [] = ([Stdout []], Returned tt)
  /\ print_stream
       [(u "aux", u "sha256:77aa");
        (u "stream", u " a" ++ [LF] ++ u "  b" ++ [LF])] []
     = ([Stdout (u "a" ++ [LF] ++ u "  b")], Returned tt).
Proof.
  split.
  - destruct (print_stream_of_record [(u "aux", u "sha256:77aa")] [])
      as (text & E & _ & _ & Hnone & _).
    rewrite E. rewrite Hnone; [reflexivity |].
    intros key value [H | []]. inversion H. discriminate.
  - destruct (print_stream_of_record
                [(u "aux", u "sha256:77aa");
                 (u "stream", u " a" ++ [LF] ++ u "  b" ++ [LF])] [])
      as (text & E & _ & _ & _ & Hsome).
    rewrite E.
    destruct (Hsome [(u "aux", u "sha256:77aa")]
                (u " a" ++ [LF] ++ u "  b" ++ [LF]) [] eq_refl)
      as [-> _]; [| reflexivity].
    intros key other [H | []]. inversion H. discriminate.
Defined.

(* ================================================================= *)
(** ** The script as a whole *)

Lemma generate_dockerfile_returns (base_image : str) (packages : list str)
    (t : list event) :
  generate_dockerfile base_image packages t
  = (t, Returned (recipe_of base_image packages)).
Proof.
  rewrite generate_dockerfile_split. do 2 f_equal.
  unfold recipe_of, template_lines, unlines.
  cbn. repeat (rewrite <- !app_assoc; cbn). reflexivity.
Qed.

Lemma parse_result (output : bytes) (t : list event) :
  (exists inventory,
     parse_installed_packages output t = (t, Returned inventory))
  \/ parse_installed_packages output t
     = (t, Raised (Exception (u "UnicodeDecodeError") (u "invalid utf-8"))).
Proof.
  destruct (decode output) as [text|] eqn:Hd.
  - left. destruct (contains (u "apt") text) eqn:Ha;
      [| destruct (contains (u "yum") text) eqn:Hy].
    + eexists. apply (parse_apt _ _ _ Hd Ha).
    + eexists. apply (parse_yum _ _ _ Hd Ha Hy).
    + eexists. apply (parse_unmarked _ _ _ Hd Ha Hy).
  - right. unfold parse_installed_packages, decode_utf_8, bind, raise.
    rewrite Hd. reflexivity.
Qed.

Ltac split_outcome x E :=
  destruct x as [? | [? ? | ? ? | ?]] eqn:E.

Ltac no_exit H E :=
  exfalso; try rewrite E in H; simpl in H; discriminate H.

(** The extraction never calls the build. *)
Lemma extraction_never_builds (client : Engine) (image : Image)
    (t : list event) :
  builds (fst (get_installed_packages client image t)) = builds t.
Proof.
  unfold get_installed_packages, try_except, bind, print, print_exc,
    sys_exit, raise, call, ret.
  split_outcome (containers_create client (id image)) E1;
    try (cbn [fst]; rewrite !builds_app; cbn; lia).
  split_outcome (put_archive client) E2;
    try (cbn [fst]; rewrite !builds_app; cbn; lia).
  split_outcome (start client) E3;
    try (cbn [fst]; rewrite !builds_app; cbn; lia).
  destruct (exec_run client (u "/list_installed_packages.sh"))
    as [[code output] | [? ? | ? ? | ?]] eqn:E4;
    try (cbn [fst]; rewrite !builds_app; cbn; lia).
  split_outcome (stop client) E5;
    try (cbn [fst]; rewrite !builds_app; cbn; lia).
  split_outcome (remove client) E6;
    try (cbn [fst]; rewrite !builds_app; cbn; lia).
  match goal with
  | |- context [parse_installed_packages ?o ?t0] =>
      destruct (parse_traceless o) as [r Hr]; rewrite (Hr t0)
  end.
  cbn [fst]. rewrite !builds_app. cbn. lia.
Qed.

(** On an engine that raises no SystemExit, a SystemExit of the
    extraction carries the code 1. *)
Lemma extraction_exit_code (client : Engine) (image : Image)
    (t : list event) :
  never_exits client ->
  match snd (get_installed_packages client image t) with
  | Raised (SystemExit code) => code = 1%Z
  | _ => True
  end.
Proof.
  intros (_ & H1 & H2 & H3 & H4 & H5 & H6 & _).
  specialize (H1 (id image)).
  specialize (H4 (u "/list_installed_packages.sh")).
  unfold get_installed_packages, try_except, bind, print, print_exc,
    sys_exit, raise, call, ret.
  split_outcome (containers_create client (id image)) E1;
    try (cbn [snd]; exact I); try (no_exit H1 E1).
  split_outcome (put_archive client) E2;
    try (cbn [snd]; exact I); try (no_exit H2 E2).
  split_outcome (start client) E3;
    try (cbn [snd]; reflexivity); try (no_exit H3 E3).
  destruct (exec_run client (u "/list_installed_packages.sh"))
    as [[code output] | [? ? | ? ? | ?]] eqn:E4;
    try (cbn [snd]; reflexivity); try (no_exit H4 E4).
  split_outcome (stop client) E5;
    try (cbn [snd]; reflexivity); try (no_exit H5 E5).
  split_outcome (remove client) E6;
    try (cbn [snd]; reflexivity); try (no_exit H6 E6).
  match goal with
  | |- context [parse_installed_packages ?o ?t0] =>
      destruct (parse_result o t0) as [[inventory Hr] | Hr]; rewrite Hr
  end; cbn [snd]; exact I.
Qed.

(** X18: the stages compose.  When the old image is found, the extraction
    returns an inventory and the engine builds the recipe generated from
    the new base image and that inventory, the script calls the build
    once, with exactly that recipe as the context's Dockerfile and with
    the requested tag, prints the build log and its closing line and
    ends normally. *)
Theorem main_builds_recipe_of_inventory (client : Engine) (args : Args)
    (old built : Image) (inventory : list str) (build_logs : list LogRecord)
    (t t1 : list event) :
  images_get client (old_image args) = Returned old ->
  get_installed_packages client old (t ++ [ImagesGet (old_image args)])
  = (t1, Returned inventory) ->
  images_build client
    [(u "Dockerfile", recipe_of (new_base_image args) inventory)]
    (new_image args)
  = Returned (built, build_logs) ->
  main client args t
  = (t1 ++ [ Stdout (u "Building new container image: " ++ new_image args);
             ImagesBuild
               [(u "Dockerfile", recipe_of (new_base_image args) inventory)]
               (new_image args) true true ]
        ++ log_lines build_logs
        ++ [ Stdout (u "New container image '" ++ new_image args
                     ++ u "' has been built successfully.") ],
     Returned tt)
  /\ exit_status (snd (main client args t)) = 0%Z.
Proof.
  intros Hg He Hb.
  assert (E : main client args t
              = (t1 ++ [ Stdout (u "Building new container image: "
                                 ++ new_image args);
                         ImagesBuild
                           [(u "Dockerfile",
                             recipe_of (new_base_image args) inventory)]
                           (new_image args) true true ]
                    ++ log_lines build_logs
                    ++ [ Stdout (u "New container image '" ++ new_image args
                                 ++ u "' has been built successfully.") ],
                 Returned tt)).
  { unfold main.
    rewrite (bind_returned _ _ t (t ++ [ImagesGet (old_image args)]) old)
      by (unfold call; rewrite Hg; reflexivity).
    rewrite (bind_returned _ _ _ _ _ He).
    rewrite (bind_returned _ _ _ _ _ (generate_dockerfile_returns _ _ t1)).
    rewrite (bind_returned _ _ _ _ _
               (build_success_returns_image client _ _ built build_logs t1 Hb)).
    unfold print, call. repeat rewrite <- app_assoc. reflexivity. }
  split; [exact E | rewrite E; reflexivity].
Qed.

Lemma main_builds_recipe_witness :
  exit_status
    (snd (main
            (engine_of (Returned demo_image) (Returned tt) (Returned true)
               (Returned tt) (Returned (0%Z, apt_output)) (Returned tt)
               (Returned tt) (Returned (demo_image, demo_logs)))
            demo_args []))
  = 0%Z.
Proof.
  apply (main_builds_recipe_of_inventory
           (engine_of (Returned demo_image) (Returned tt) (Returned true)
              (Returned tt) (Returned (0%Z, apt_output)) (Returned tt)
              (Returned tt) (Returned (demo_image, demo_logs)))
           demo_args demo_image demo_image [u "curl"] demo_logs []
           ([ImagesGet (u "app:1")] ++ probe_events demo_image)).
  - reflexivity.
  - reflexivity.
  - reflexivity.
Defined.

(** X19: when the old image cannot be found, the exception of
    [images.get] ends the script at once: no container is created and
    nothing is built or printed. *)
Theorem main_stops_when_image_is_missing (client : Engine) (args : Args)
    (e : exn) (t : list event) :
  images_get client (old_image args) = Raised e ->
  main client args t = (t ++ [ImagesGet (old_image args)], Raised e).
Proof.
  intros Hg. unfold main.
  apply bind_raised. unfold call. rewrite Hg. reflexivity.
Qed.

Lemma main_image_missing_witness :
  main
    (engine_of (Raised (Exception (u "ImageNotFound") (u "404 Not Found")))
       (Returned tt) (Returned true) (Returned tt) (Returned (0%Z, []))
       (Returned tt) (Returned tt) (Returned (demo_image, [])))
    demo_args []
  = ([ImagesGet (u "app:1")],
     Raised (Exception (u "ImageNotFound") (u "404 Not Found"))).
Proof.
  apply (main_stops_when_image_is_missing
           (engine_of
              (Raised (Exception (u "ImageNotFound") (u "404 Not Found")))
              (Returned tt) (Returned true) (Returned tt)
              (Returned (0%Z, [])) (Returned tt) (Returned tt)
              (Returned (demo_image, [])))
           demo_args (Exception (u "ImageNotFound") (u "404 Not Found")) []).
  reflexivity.
Defined.

(** X20: when the extraction raises, the script ends with that exception
    and the engine's build is never called: no recipe is built from a
    failed extraction. *)
Theorem main_never_builds_after_failed_extraction (client : Engine)
    (args : Args) (old : Image) (e : exn) (t : list event) :
  images_get client (old_image args) = Returned old ->
  snd (get_installed_packages client old (t ++ [ImagesGet (old_image args)]))
  = Raised e ->
  snd (main client args t) = Raised e
  /\ builds (fst (main client args t)) = builds t.
Proof.
  intros Hg He.
  pose proof (extraction_never_builds client old
                (t ++ [ImagesGet (old_image args)])) as Hn.
  destruct (get_installed_packages client old
              (t ++ [ImagesGet (old_image args)])) as [t1 r] eqn:Ex.
  simpl in He. subst r.
  assert (E : main client args t = (t1, Raised e)).
  { unfold main.
    rewrite (bind_returned _ _ t (t ++ [ImagesGet (old_image args)]) old)
      by (unfold call; rewrite Hg; reflexivity).
    apply bind_raised. exact Ex. }
  rewrite E. split; [reflexivity |].
  cbn [fst] in *. rewrite Hn, builds_app. unfold builds. simpl. lia.
Qed.

Lemma main_failed_extraction_witness :
  snd (main engine_exec_raises demo_args []) = Raised (SystemExit 1)
  /\ builds (fst (main engine_exec_raises demo_args [])) = 0%nat.
Proof.
  apply (main_never_builds_after_failed_extraction engine_exec_raises
           demo_args demo_image (SystemExit 1) []).
  - reflexivity.
  - reflexivity.
Defined.

Lemma parse_at_any_trace (output : bytes) (inventory : list str)
    (t : list event) :
  snd (parse_installed_packages output t) = Returned inventory ->
  forall t', parse_installed_packages output t' = (t', Returned inventory).
Proof.
  destruct (parse_traceless output) as [r Hr]. intros H t'.
  rewrite Hr in H. simpl in H. subst r. apply Hr.
Qed.

(** An extraction that returns has had every engine call succeed, and
    its inventory is the parsing of the probe's output. *)
Lemma extraction_returns_inv (client : Engine) (image : Image)
    (t : list event) (inventory : list str) :
  snd (get_installed_packages client image t) = Returned inventory ->
  exists exit_code output,
    probe_ok client image exit_code output
    /\ snd (parse_installed_packages output []) = Returned inventory.
Proof.
  unfold get_installed_packages, try_except, bind, print, print_exc,
    sys_exit, raise, call, ret.
  split_outcome (containers_create client (id image)) E1;
    try (intros H; discriminate H).
  split_outcome (put_archive client) E2;
    try (intros H; discriminate H).
  split_outcome (start client) E3;
    try (intros H; discriminate H).
  destruct (exec_run client (u "/list_installed_packages.sh"))
    as [[code output] | [? ? | ? ? | ?]] eqn:E4;
    try (intros H; discriminate H).
  split_outcome (stop client) E5;
    try (intros H; discriminate H).
  split_outcome (remove client) E6;
    try (intros H; discriminate H).
  intros H. exists code, output. split.
  - repeat match goal with
           | x : unit |- _ => destruct x
           end.
    unfold probe_ok. repeat split; try assumption.
    eexists. eassumption.
  - rewrite (parse_at_any_trace _ _ _ H []). reflexivity.
Qed.

Lemma build_raises_exit_1 (client : Engine) (dockerfile tag : str)
    (e : exn) (t : list event) :
  images_build client [(u "Dockerfile", dockerfile)] tag = Raised e ->
  is_system_exit (@Raised (Image * list LogRecord) e) = false ->
  snd (build_container_image client dockerfile tag t)
  = Raised (SystemExit 1).
Proof.
  intros Hb Hn.
  unfold build_container_image, try_except, bind, print, sys_exit, raise,
    call, ret.
  rewrite Hb. destruct e as [msg log | cls msg | code].
  - rewrite log_lines_printed. reflexivity.
  - reflexivity.
  - discriminate Hn.
Qed.

Lemma main_success_run (client : Engine) (args : Args) (old built : Image)
    (inventory : list str) (build_logs : list LogRecord)
    (t t1 : list event) :
  images_get client (old_image args) = Returned old ->
  get_installed_packages client old (t ++ [ImagesGet (old_image args)])
  = (t1, Returned inventory) ->
  images_build client
    [(u "Dockerfile", recipe_of (new_base_image args) inventory)]
    (new_image args)
  = Returned (built, build_logs) ->
  snd (main client args t) = Returned tt.
Proof.
  intros Hg He Hb. unfold main.
  rewrite (bind_returned _ _ t (t ++ [ImagesGet (old_image args)]) old)
    by (unfold call; rewrite Hg; reflexivity).
  rewrite (bind_returned _ _ _ _ _ He).
  rewrite (bind_returned _ _ _ _ _ (generate_dockerfile_returns _ _ t1)).
  unfold build_container_image, try_except, bind, print, call, ret.
  rewrite Hb. rewrite log_lines_printed. reflexivity.
Qed.

(** X21: one failure code, and only for failures.  On an engine that
    itself raises no SystemExit, the script returns and ends with status 0
    exactly when every stage succeeds: the old image is found, every
    engine call of the extraction succeeds, the output is parsed, and the
    engine builds the generated recipe.  In every other case the script
    ends by an exception and with status 1. *)
Theorem main_exits_0_exactly_on_success (client : Engine) (args : Args)
    (t : list event) :
  never_exits client ->
  (pipeline_succeeds client args
   /\ snd (main client args t) = Returned tt
   /\ exit_status (snd (main client args t)) = 0%Z)
  \/ (~ pipeline_succeeds client args
      /\ (exists e, snd (main client args t) = Raised e)
      /\ exit_status (snd (main client args t)) = 1%Z).
Proof.
  intros Hn.
  pose proof Hn as (Hget & _ & _ & _ & _ & _ & _ & Hbuild).
  specialize (Hget (old_image args)).
  destruct (images_get client (old_image args)) as [old | e] eqn:Eg.
  - destruct (get_installed_packages client old
                (t ++ [ImagesGet (old_image args)]))
      as [t1 [inventory | e]] eqn:Ex.
    + assert (Hx : snd (get_installed_packages client old
                          (t ++ [ImagesGet (old_image args)]))
                   = Returned inventory) by (rewrite Ex; reflexivity).
      destruct (extraction_returns_inv _ _ _ _ Hx)
        as (code & output & Hp & Hparse).
      specialize (Hbuild
                    [(u "Dockerfile",
                      recipe_of (new_base_image args) inventory)]
                    (new_image args)).
      destruct (images_build client
                  [(u "Dockerfile",
                    recipe_of (new_base_image args) inventory)]
                  (new_image args)) as [[built logs] | e] eqn:Eb.
      * left. split.
        -- exists old, code, output, inventory, built, logs.
           split; [exact Eg |]. split; [exact Hp |].
           split; [exact Hparse | exact Eb].
        -- rewrite (main_success_run client args old built inventory logs
                      t t1 Eg Ex Eb).
           split; reflexivity.
      * right. split.
        -- intros (old' & code' & output' & inventory' & built' & logs'
                   & Hg' & Hp' & Hparse' & Hb').
           rewrite Eg in Hg'. injection Hg' as <-.
           assert (Eo : output' = output).
           { destruct Hp as (_ & _ & _ & He & _).
             destruct Hp' as (_ & _ & _ & He' & _).
             rewrite He in He'. injection He' as _ Ho. symmetry. exact Ho. }
           subst output'. rewrite Hparse in Hparse'.
           injection Hparse' as <-. rewrite Eb in Hb'. discriminate Hb'.
        -- assert (Em : snd (main client args t) = Raised (SystemExit 1)).
           { unfold main.
             rewrite (bind_returned _ _ t
                        (t ++ [ImagesGet (old_image args)]) old)
               by (unfold call; rewrite Eg; reflexivity).
             rewrite (bind_returned _ _ _ _ _ Ex).
             rewrite (bind_returned _ _ _ _ _
                        (generate_dockerfile_returns _ _ t1)).
             pose proof (build_raises_exit_1 client _ _ e t1 Eb Hbuild)
               as Hr.
             unfold bind.
             destruct (build_container_image client
                         (recipe_of (new_base_image args) inventory)
                         (new_image args) t1) as [t2 r].
             simpl in Hr. subst r. reflexivity. }
           rewrite Em. split; [eexists; reflexivity | reflexivity].
    + right.
      assert (Em : snd (main client args t) = Raised e).
      { unfold main.
        rewrite (bind_returned _ _ t (t ++ [ImagesGet (old_image args)]) old)
          by (unfold call; rewrite Eg; reflexivity).
        rewrite (bind_raised _ _ _ _ _ Ex). reflexivity. }
      split; [| split].
      * intros (old' & code' & output' & inventory' & built' & logs'
                & Hg' & Hp' & Hparse' & _).
        rewrite Eg in Hg'. injection Hg' as <-.
        rewrite (extraction_after_probe _ _ _ _ _ Hp') in Ex.
        rewrite (parse_at_any_trace _ _ _ Hparse') in Ex.
        discriminate Ex.
      * exists e. exact Em.
      * rewrite Em.
        pose proof (extraction_exit_code client old
                      (t ++ [ImagesGet (old_image args)]) Hn) as Hc.
        rewrite Ex in Hc. simpl in Hc.
        destruct e as [msg log | cls msg | code]; try reflexivity.
        subst code. reflexivity.
  - right.
    assert (Em : main client args t
                 = (t ++ [ImagesGet (old_image args)], Raised e)).
    { unfold main. apply bind_raised. unfold call. rewrite Eg.
      reflexivity. }
    split; [| split].
    + intros (old' & code' & output' & inventory' & built' & logs'
              & Hg' & _).
      rewrite Eg in Hg'. discriminate Hg'.
    + exists e. rewrite Em. reflexivity.
    + rewrite Em. destruct e as [msg log | cls msg | code];
        try reflexivity.
      discriminate Hget.
Qed.

Lemma main_exit_status_witness :
  never_exits engine_build_fails
  /\ ~ pipeline_succeeds engine_build_fails demo_args
  /\ exit_status (snd (main engine_build_fails demo_args [])) = 1%Z.
Proof.
  assert (H : never_exits engine_build_fails).
  { unfold never_exits. simpl. repeat split. }
  split; [exact H |].
  destruct (main_exits_0_exactly_on_success engine_build_fails demo_args []
              H) as [(_ & _ & E) | (Hno & _ & E)].
  - vm_compute in E. discriminate E.
  - split; [exact Hno | exact E].
Defined.

(* ================================================================= *)
(** ** The recipe line by line, and plain ASCII output *)

Lemma splitlines_line (l rest : str) :
  no_linebreak l = true ->
  splitlines (l ++ LF :: rest) = l :: splitlines rest.
Proof.
  induction l as [|c l IH]; intros H.
  - simpl. destruct rest; reflexivity.
  - unfold no_linebreak in H. simpl in H.
    apply andb_true_iff in H. destruct H as [Hc Hl].
    apply negb_true_iff in Hc.
    change ((c :: l) ++ LF :: rest) with (c :: (l ++ LF :: rest)).
    cbn [splitlines]. rewrite Hc. rewrite (IH Hl). reflexivity.
Qed.

Lemma splitlines_unlines (ls : list str) (tail : str) :
  forallb no_linebreak ls = true ->
  splitlines (unlines ls ++ tail) = ls ++ splitlines tail.
Proof.
  induction ls as [|l ls IH]; intros H.
  - reflexivity.
  - simpl in H. apply andb_true_iff in H. destruct H as [Hl Hls].
    unfold unlines in *. simpl. rewrite <- ?app_assoc. simpl.
    rewrite (splitlines_line l _ Hl). rewrite (IH Hls). reflexivity.
Qed.

Lemma no_linebreak_app (x y : str) :
  no_linebreak x = true -> no_linebreak y = true ->
  no_linebreak (x ++ y) = true.
Proof.
  unfold no_linebreak. intros Hx Hy. rewrite forallb_app, Hx, Hy.
  reflexivity.
Qed.

Lemma no_linebreak_join (ps : list str) :
  forallb no_linebreak ps = true -> no_linebreak (join (u " ") ps) = true.
Proof.
  induction ps as [|x ps IH]; intros H.
  - reflexivity.
  - simpl in H. apply andb_true_iff in H. destruct H as [Hx Hps].
    destruct ps as [|y ps]; [exact Hx |].
    change (join (u " ") (x :: y :: ps))
      with (x ++ u " " ++ join (u " ") (y :: ps)).
    apply no_linebreak_app; [exact Hx |].
    apply no_linebreak_app; [reflexivity | exact (IH Hps)].
Qed.

Lemma no_linebreak_indent (l : str) :
  no_linebreak l = true -> no_linebreak (indent l) = true.
Proof.
  intros H. destruct l as [|c l]; [reflexivity |].
  unfold indent. apply no_linebreak_app; [reflexivity | exact H].
Qed.

(** X22: when neither the base image nor any package name holds a
    line-break character, the recipe reads back line by line as an empty
    first line, the six lines of the template and the six lines of
    comments, each indented unless blank, and a last line of four spaces:
    fourteen lines, the packages all on the sixth. *)
Theorem recipe_lines (base_image : str) (packages : list str)
    (t : list event) :
  no_linebreak base_image = true ->
  forallb no_linebreak packages = true ->
  exists dockerfile,
    snd (generate_dockerfile base_image packages t) = Returned dockerfile
    /\ splitlines dockerfile
       = [] :: map indent
                 (template_lines base_image packages ++ trailing_comments)
            ++ [u "    "]
    /\ nth_error (splitlines dockerfile) 5
       = Some (u "        " ++ join (u " ") packages ++ u " && "
               ++ [BACKSLASH]).
Proof.
  intros Hb Hps. rewrite generate_dockerfile_returns. eexists.
  split; [reflexivity |].
  assert (E : splitlines (recipe_of base_image packages)
              = [] :: map indent
                        (template_lines base_image packages
                         ++ trailing_comments)
                   ++ [u "    "]).
  { unfold recipe_of.
    change ([LF] ++ ?x) with ([] ++ LF :: x).
    rewrite (splitlines_line [] _ eq_refl).
    rewrite splitlines_unlines; [reflexivity |].
    rewrite map_app, forallb_app. apply andb_true_iff. split.
    - unfold template_lines. cbn [map forallb].
      rewrite !andb_true_iff. repeat split.
      + apply no_linebreak_indent.
        apply no_linebreak_app; [reflexivity | exact Hb].
      + apply no_linebreak_indent.
        apply no_linebreak_app; [reflexivity |].
        apply no_linebreak_app; [apply no_linebreak_join; exact Hps |].
        reflexivity.
    - reflexivity. }
  split; [exact E |].
  rewrite E. unfold template_lines. cbn. rewrite <- ?app_assoc. reflexivity.
Qed.

Lemma recipe_lines_witness :
  exists dockerfile,
    snd (generate_dockerfile (u "debian:12") [u "curl"; u "bash"] [])
    = Returned dockerfile
    /\ List.length (splitlines dockerfile) = 14%nat
    /\ nth_error (splitlines dockerfile) 5
       = Some (u "        curl bash && " ++ [BACKSLASH]).
Proof.
  destruct (recipe_lines (u "debian:12") [u "curl"; u "bash"] []
              eq_refl eq_refl) as (dockerfile & E & L & P).
  exists dockerfile. split; [exact E |]. split.
  - rewrite L. reflexivity.
  - rewrite P. reflexivity.
Defined.

Lemma decode_ascii (output : bytes) :
  forallb (fun x => Byte.to_N x <? 0x80) output = true ->
  decode output = Some (map Byte.to_N output).
Proof.
  unfold decode. induction output as [|x output IH]; intros H.
  - reflexivity.
  - simpl in H. apply andb_true_iff in H. destruct H as [Hx Ho].
    cbn [map decode_utf8]. rewrite Hx. rewrite (IH Ho). reflexivity.
Qed.

Lemma parse_returns_when_decodable (output : bytes) (text : str)
    (t : list event) :
  decode output = Some text ->
  exists inventory,
    parse_installed_packages output t = (t, Returned inventory).
Proof.
  intros Hd. destruct (contains (u "apt") text) eqn:Ha;
    [| destruct (contains (u "yum") text) eqn:Hy].
  - eexists. apply (parse_apt _ _ _ Hd Ha).
  - eexists. apply (parse_yum _ _ _ Hd Ha Hy).
  - eexists. apply (parse_unmarked _ _ _ Hd Ha Hy).
Qed.

(** X23: plain ASCII output always decodes, to its own byte values; with
    it and successful engine calls the extraction returns an inventory
    and no exception. *)
Theorem ascii_output_gives_inventory (client : Engine) (image : Image)
    (exit_code : Z) (output : bytes) (t : list event) :
  probe_ok client image exit_code output ->
  forallb (fun x => Byte.to_N x <? 0x80) output = true ->
  decode output = Some (map Byte.to_N output)
  /\ exists inventory,
       get_installed_packages client image t
       = (t ++ probe_events image, Returned inventory).
Proof.
  intros Hp Ha. pose proof (decode_ascii output Ha) as Hd.
  split; [exact Hd |].
  rewrite (extraction_after_probe _ _ _ _ _ Hp).
  apply (parse_returns_when_decodable output _ _ Hd).
Qed.

Lemma ascii_output_witness :
  exists inventory,
    get_installed_packages (engine_printing apt_output) demo_image []
    = (probe_events demo_image, Returned inventory).
Proof.
  apply (ascii_output_gives_inventory (engine_printing apt_output)
           demo_image 0%Z apt_output []).
  - apply probe_ok_engine_printing.
  - reflexivity.
Defined.
